(** * EVM_Transfer: the transfer client ([client.py]) as a shallow embedding

    The Python class [Client] builds, funds-checks, signs and confirms one
    value transfer.  Its methods are embedded as programs of a small
    state-and-exception monad: the state holds the mutable attributes of
    [self] and the lines written by [logger.error] and [print]; an exception
    leaves the state as it was when it was raised.  Python's numbers are
    modelled as they behave: [int] as [Z], [float] as IEEE binary64
    ([SpecFloat], precision 53), [decimal.Decimal] as coefficient and
    exponent with the context's rounding.  The RPC endpoint, the contract
    and the ABI file are a record of answers, [rpc]. *)

From Stdlib Require Import ZArith QArith Qpower Qfield Qround Bool List String.
From Stdlib Require Import Lia Lqa SpecFloat.
Import ListNotations.
Open Scope Z_scope.

(** ** Python numbers *)

(** An [int] or a finite [decimal.Decimal] [coef * 10 ^ exp]. *)
Inductive num : Type :=
| PyInt (n : Z)
| PyDec (coef : Z) (exp : Z).

(** ** Messages, exceptions, outcomes *)

(** A formatted string: the literal pieces of an f-string and the values
    substituted into it. *)
Inductive frag : Type :=
| Lit (s : string)
| FInt (z : Z)
| FNum (x : num)
| FStr (s : string).

Definition fstring := list frag.

Inductive exn : Type :=
| ValueError (msg : fstring)
| RuntimeError (msg : fstring)
| OverflowError (msg : fstring)
| DecimalOverflow
| ContractLogicError (reason : string)
| InvalidTransaction (reason : string)
| TimeExhausted
| OtherError (name : string).

Inductive outcome (A : Type) : Type :=
| Return (a : A)
| Raise (e : exn).
Arguments Return {A} a.
Arguments Raise {A} e.

(** A bare [raise] outside an [except] block. *)
Definition bare_raise : exn :=
  RuntimeError [Lit "No active exception to reraise"].

(** ** [float]: IEEE 754 binary64 *)

Module PyFloat.

Definition prec : Z := 53.
Definition emax : Z := 1024.

(** [float(n)] for an [int], as the mixed product [n * 1.05] converts its
    left operand: nearest-even, [OverflowError] beyond the range. *)
Definition of_int (n : Z) : outcome spec_float :=
  match binary_normalize prec emax n 0 false with
  | S754_infinity _ =>
      Raise (OverflowError [Lit "int too large to convert to float"])
  | f => Return f
  end.

Definition mul (x y : spec_float) : spec_float := SFmul prec emax x y.

(** The literal [1.05]: the double nearest to 21/20. *)
Definition lit_1_05 : spec_float :=
  S754_finite false 4728779608739021 (-52).

(** [int(x)] for a [float]: truncation toward zero. *)
Definition to_int (x : spec_float) : outcome Z :=
  match x with
  | S754_zero _ => Return 0
  | S754_finite s m e =>
      Return (cond_Zopp s
                (match e with
                 | Zneg p => Zpos m / 2 ^ Zpos p
                 | _ => Zpos m * 2 ^ e
                 end))
  | S754_infinity _ =>
      Raise (OverflowError [Lit "cannot convert float infinity to integer"])
  | S754_nan =>
      Raise (ValueError [Lit "cannot convert float NaN to integer"])
  end.

(** [int(n * 1.05)]. *)
Definition int_mul_1_05 (n : Z) : outcome Z :=
  match of_int n with
  | Return f => to_int (mul f lit_1_05)
  | Raise e => Raise e
  end.

End PyFloat.

(** ** [decimal.Decimal] *)

Module PyDecimal.

(** The default context: 28 digits, ROUND_HALF_EVEN, exponents within
    [Emin, Emax]; of the signals only [Overflow] is trapped here. *)
Definition default_prec : Z := 28.
Definition Emax : Z := 999999.
Definition Emin : Z := -999999.

Definition as_dec (x : num) : Z * Z :=
  match x with
  | PyInt n => (n, 0)
  | PyDec c e => (c, e)
  end.

(** The rational a number stands for. *)
Definition value (x : num) : Q :=
  match x with
  | PyInt n => inject_Z n
  | PyDec c e => inject_Z c * Qpower (10 # 1) e
  end.

(** Comparisons of [int] and [Decimal] are exact. *)
Definition lt (x y : num) : bool :=
  match Qcompare (value x) (value y) with
  | Lt => true
  | _ => false
  end.

Definition eq (x y : num) : bool :=
  match Qcompare (value x) (value y) with
  | Eq => true
  | _ => false
  end.

Fixpoint count_digits (fuel : nat) (n : Z) : Z :=
  match fuel with
  | O => 1
  | S fuel' => if n <? 10 then 1 else 1 + count_digits fuel' (n / 10)
  end.

(** [len(self._int)]: the number of decimal digits of a coefficient. *)
Definition digits10 (n : Z) : Z :=
  count_digits (Z.to_nat (Z.log2 (Z.abs n))) (Z.abs n).

(** [Decimal._fix]: round a result to the context. *)
Definition fix_ (prec : Z) (c e : Z) : outcome num :=
  let Etiny := Emin - prec + 1 in
  let Etop := Emax - prec + 1 in
  if c =? 0 then Return (PyDec 0 (Z.min (Z.max e Etiny) Emax))
  else
    let a := Z.abs c in
    let exp_min0 := digits10 a + e - prec in
    if Etop <? exp_min0 then Raise DecimalOverflow
    else
      let exp_min := Z.max exp_min0 Etiny in
      if e <? exp_min then
        let k := exp_min - e in
        let q := a / 10 ^ k in
        let r := a mod 10 ^ k in
        let up := (10 ^ k <? 2 * r) || ((10 ^ k =? 2 * r) && Z.odd q) in
        let q1 := if up then q + 1 else q in
        let carry := up && (prec <? digits10 q1) in
        let q2 := if carry then q1 / 10 else q1 in
        let e2 := if carry then exp_min + 1 else exp_min in
        if Etop <? e2 then Raise DecimalOverflow
        else Return (PyDec (Z.sgn c * q2) e2)
      else Return (PyDec c e).

(** [x + y]: exact on two [int]s, otherwise the exact sum rounded to the
    default context. *)
Definition add (x y : num) : outcome num :=
  match x, y with
  | PyInt a, PyInt b => Return (PyInt (a + b))
  | _, _ =>
      let '(c1, e1) := as_dec x in
      let '(c2, e2) := as_dec y in
      let m := Z.min e1 e2 in
      fix_ default_prec (c1 * 10 ^ (e1 - m) + c2 * 10 ^ (e2 - m)) m
  end.

(** [int(x)]: truncation toward zero. *)
Definition to_integral (x : num) : Z :=
  match x with
  | PyInt n => n
  | PyDec c e => if 0 <=? e then c * 10 ^ e else Z.quot c (10 ^ (- e))
  end.

End PyDecimal.

(** ** The conversions of the web3 library ([to_wei], [from_wei]) *)

Module Web3.

Inductive unit_name : Type := mwei | gwei | ether.

Definition unit_decimals (u : unit_name) : Z :=
  match u with
  | mwei => 6
  | gwei => 9
  | ether => 18
  end.

(** [units[unit]], a [Decimal] with exponent 0. *)
Definition unit_value (u : unit_name) : Z := 10 ^ unit_decimals u.

Definition MIN_WEI : Z := 0.
Definition MAX_WEI : Z := 2 ^ 256 - 1.

(** [to_wei(number, unit)]: the product with the unit at 999 digits, checked
    against the range of a wei amount and truncated.  (For an amount below 1
    written with a point the library first moves the point out of the
    amount and into the unit; the product is the same.) *)
Definition to_wei (number : num) (u : unit_name) : outcome Z :=
  let '(c, e) := PyDecimal.as_dec number in
  if c =? 0 then Return 0
  else
    match PyDecimal.fix_ 999 (c * unit_value u) e with
    | Raise ex => Raise ex
    | Return r =>
        if PyDecimal.lt r (PyInt MIN_WEI) || PyDecimal.lt (PyInt MAX_WEI) r
        then Raise (ValueError
               [Lit "Resulting wei value must be between 1 and 2**256 - 1"])
        else Return (PyDecimal.to_integral r)
    end.

(** An exact quotient of [Decimal]s is brought as close to the ideal
    exponent, here 0, as it goes: while the exponent is negative and the
    coefficient ends in a zero, the zero is dropped. *)
Fixpoint toward_ideal (fuel : nat) (c e : Z) : Z * Z :=
  match fuel with
  | O => (c, e)
  | S fuel' =>
      if (e <? 0) && (c mod 10 =? 0) then toward_ideal fuel' (c / 10) (e + 1)
      else (c, e)
  end.

(** [from_wei(number, unit)]: [0] for [0], otherwise the quotient by the
    unit at 999 digits, which is exact for every amount in range: 55 * 10^18
    wei are [Decimal('55')] ether, 15 * 10^17 wei are [Decimal('1.5')]. *)
Definition from_wei (number : Z) (u : unit_name) : outcome num :=
  if number =? 0 then Return (PyInt 0)
  else if (number <? MIN_WEI) || (MAX_WEI <? number)
  then Raise (ValueError [Lit "value must be between 1 and 2**256 - 1"])
  else
    let '(c, e) := toward_ideal (Z.to_nat (unit_decimals u)) number
                     (- unit_decimals u) in
    Return (PyDec c e).

End Web3.

(** ** The client's state and its collaborators *)

(** A bound contract: [web3.eth.contract(address=..., abi=...)]. *)
Record AsyncContract : Type := {
  c_address : string;
  c_abi : string
}.

(** The attributes of [self] that the methods read and write. *)
Record Client : Type := {
  private_key : string;
  address : string;
  contract : option AsyncContract;
  contract_address : option string
}.

(** The call encoded in a contract transaction's [data]. *)
Inductive call_data : Type :=
| Transfer (recipient : string) (amount : Z).

(** [TxParams]: a dictionary in which a key may be absent. *)
Record TxParams : Type := {
  chainId : option Z;
  nonce : option Z;
  from_ : option string;
  value : option Z;
  maxPriorityFeePerGas : option Z;
  maxFeePerGas : option Z;
  gasPrice : option Z;
  to_ : option string;
  data : option call_data;
  gas : option Z
}.

Definition set_value (v : Z) (t : TxParams) : TxParams :=
  {| chainId := chainId t; nonce := nonce t; from_ := from_ t;
     value := Some v;
     maxPriorityFeePerGas := maxPriorityFeePerGas t;
     maxFeePerGas := maxFeePerGas t; gasPrice := gasPrice t;
     to_ := to_ t; data := data t; gas := gas t |}.

Definition set_fees_1559 (prio fee : Z) (t : TxParams) : TxParams :=
  {| chainId := chainId t; nonce := nonce t; from_ := from_ t;
     value := value t;
     maxPriorityFeePerGas := Some prio;
     maxFeePerGas := Some fee; gasPrice := gasPrice t;
     to_ := to_ t; data := data t; gas := gas t |}.

Definition set_gasPrice (p : Z) (t : TxParams) : TxParams :=
  {| chainId := chainId t; nonce := nonce t; from_ := from_ t;
     value := value t;
     maxPriorityFeePerGas := maxPriorityFeePerGas t;
     maxFeePerGas := maxFeePerGas t; gasPrice := Some p;
     to_ := to_ t; data := data t; gas := gas t |}.

Definition set_gas (g : Z) (t : TxParams) : TxParams :=
  {| chainId := chainId t; nonce := nonce t; from_ := from_ t;
     value := value t;
     maxPriorityFeePerGas := maxPriorityFeePerGas t;
     maxFeePerGas := maxFeePerGas t; gasPrice := gasPrice t;
     to_ := to_ t; data := data t; gas := Some g |}.

(** What [build_transaction] of a contract function adds to the dictionary
    it is given: the contract as [to], the encoded call as [data], and the
    default [value = 0] if the key is absent. *)
Definition set_call (addr : string) (d : call_data) (t : TxParams)
  : TxParams :=
  {| chainId := chainId t; nonce := nonce t; from_ := from_ t;
     value := match value t with Some v => Some v | None => Some 0 end;
     maxPriorityFeePerGas := maxPriorityFeePerGas t;
     maxFeePerGas := maxFeePerGas t; gasPrice := gasPrice t;
     to_ := Some addr; data := Some d; gas := gas t |}.

Record TxReceipt : Type := {
  status : Z
}.

(** The answers of the collaborators: the RPC endpoint, the contract at an
    address, the address normaliser, the ABI file and the library's check of
    an ABI.  Every call may fail.  [wait_for_transaction_receipt h] is what
    the library's wait for the receipt of [h] ends with when it is called
    with its own defaults: the receipt, [TimeExhausted], or another
    failure of the endpoint. *)
Record rpc : Type := {
  to_checksum_address : string -> outcome string;
  chain_id : outcome Z;
  get_transaction_count : string -> outcome Z;
  gas_price : outcome Z;
  max_priority_fee : outcome Z;
  estimate_gas : TxParams -> outcome Z;
  get_balance : string -> outcome Z;
  read_abi : string -> outcome string;
  validate_abi : string -> outcome unit;
  call_decimals : string -> outcome Z;
  call_balanceOf : string -> string -> outcome Z;
  sign_transaction : TxParams -> string -> outcome string;
  send_raw_transaction : string -> outcome string;
  wait_for_transaction_receipt : string -> outcome TxReceipt
}.

(** ** The monad of the methods *)

Inductive event : Type :=
| LoggerError (m : fstring)
| Stdout (m : fstring).

Record state : Type := {
  self : Client;
  out : list event
}.

Definition M (A : Type) : Type := state -> outcome A * state.

Definition ret {A} (a : A) : M A := fun s => (Return a, s).

Definition bind {A B} (c : M A) (k : A -> M B) : M B :=
  fun s =>
    match c s with
    | (Return a, s') => k a s'
    | (Raise e, s') => (Raise e, s')
    end.

Definition raise {A} (e : exn) : M A := fun s => (Raise e, s).

(** The result of a call that does not touch the state. *)
Definition lift {A} (o : outcome A) : M A := fun s => (o, s).

Definition gets {A} (f : Client -> A) : M A := fun s => (Return (f (self s)), s).

Definition modify (f : Client -> Client) : M unit :=
  fun s => (Return tt, {| self := f (self s); out := out s |}).

(** The state after one more line of output. *)
Definition say (e : event) (s : state) : state :=
  {| self := self s; out := out s ++ [e] |}.

Definition emit (e : event) : M unit := fun s => (Return tt, say e s).

(** [try: c except ContractLogicError as error: h error; raise]. *)
Definition on_contract_logic_error {A} (c : M A) (h : string -> M unit) : M A :=
  fun s =>
    match c s with
    | (Raise (ContractLogicError r), s') =>
        match h r s' with
        | (Return _, s'') => (Raise (ContractLogicError r), s'')
        | (Raise e, s'') => (Raise e, s'')
        end
    | r => r
    end.

(** [try: c except InvalidTransaction as error: h error; raise]. *)
Definition on_invalid_transaction {A} (c : M A) (h : string -> M unit) : M A :=
  fun s =>
    match c s with
    | (Raise (InvalidTransaction r), s') =>
        match h r s' with
        | (Return _, s'') => (Raise (InvalidTransaction r), s'')
        | (Raise e, s'') => (Raise e, s'')
        end
    | r => r
    end.

(** [try: c except TimeExhausted: h; raise]. *)
Definition on_time_exhausted {A} (c : M A) (h : M unit) : M A :=
  fun s =>
    match c s with
    | (Raise TimeExhausted, s') =>
        match h s' with
        | (Return _, s'') => (Raise TimeExhausted, s'')
        | (Raise e, s'') => (Raise e, s'')
        end
    | r => r
    end.

Declare Scope py_scope.
Delimit Scope py_scope with py.
Notation "x <- c ;; k" := (bind c (fun x => k))
  (at level 61, c at next level, right associativity) : py_scope.
Notation "c ;; k" := (bind c (fun _ => k))
  (at level 61, right associativity) : py_scope.
Open Scope py_scope.

(** ** The methods of [Client] *)

Definition logger_error (m : fstring) : M unit := emit (LoggerError m).
Definition print (m : fstring) : M unit := emit (Stdout m).

(** The dictionary [unit_names] of [to_wei] and [from_wei], with [get]. *)
Definition unit_names (decimals : Z) : option Web3.unit_name :=
  match decimals with
  | 6 => Some Web3.mwei
  | 9 => Some Web3.gwei
  | 18 => Some Web3.ether
  | _ => None
  end.

Definition cant_find_unit_name (decimals : Z) : fstring :=
  [Lit "Can't find unit name with decimals: "; FInt decimals].

Definition to_wei (v : num) (decimals : Z) : M Z :=
  match unit_names decimals with
  | None =>
      logger_error (cant_find_unit_name decimals) ;;
      raise (ValueError (cant_find_unit_name decimals))
  | Some unit_name => lift (Web3.to_wei v unit_name)
  end.

Definition from_wei (v : Z) (decimals : Z) : M num :=
  match unit_names decimals with
  | None =>
      logger_error (cant_find_unit_name decimals) ;;
      raise (ValueError (cant_find_unit_name decimals))
  | Some unit_name => lift (Web3.from_wei v unit_name)
  end.

Section Methods.

(** [config.USE_EIP_1559], [config.BASE_EXPLORER_URL] and the
    collaborators. *)
Variable USE_EIP_1559 : bool.
Variable BASE_EXPLORER_URL : string.
Variable w3 : rpc.

Definition _load_abi (path : string) : M string := lift (read_abi w3 path).

(** [web3.eth.contract(address=a, abi=abi)]: the handle at [a], unless the
    library rejects what the file held as an ABI. *)
Definition eth_contract (a abi : string) : outcome AsyncContract :=
  match validate_abi w3 abi with
  | Return _ => Return {| c_address := a; c_abi := abi |}
  | Raise e => Raise e
  end.

Definition set_contract (addr : string) : M unit :=
  abi <- _load_abi "ERC20_ABI.json" ;;
  a <- lift (to_checksum_address w3 addr) ;;
  modify (fun c => {| private_key := private_key c; address := address c;
                      contract := contract c;
                      contract_address := Some a |}) ;;
  handle <- lift (eth_contract a abi) ;;
  modify (fun c => {| private_key := private_key c; address := address c;
                      contract := Some handle;
                      contract_address := contract_address c |}).

Definition _ensure_sufficient_funds (v gas_cost : num) : M bool :=
  me <- gets address ;;
  native_balance_wei <- lift (get_balance w3 me) ;;
  native_balance <- lift (Web3.from_wei native_balance_wei Web3.ether) ;;
  print [Lit "Native balance: "; FNum native_balance] ;;
  if PyDecimal.lt native_balance gas_cost then
    logger_error [Lit "Insufficient balance to cover gas cost: ";
                  FNum gas_cost] ;;
    raise bare_raise
  else
    c <- gets contract ;;
    match c with
    | Some c =>
        contract_balance_wei <- lift (call_balanceOf w3 (c_address c) me) ;;
        decimals <- lift (call_decimals w3 (c_address c)) ;;
        contract_balance <- from_wei contract_balance_wei decimals ;;
        print [Lit "Contract balance: "; FNum contract_balance] ;;
        if PyDecimal.lt contract_balance v then
          logger_error [Lit "Insufficient contract balance: ";
                        FNum contract_balance] ;;
          raise bare_raise
        else ret true
    | None =>
        total <- lift (PyDecimal.add v gas_cost) ;;
        if PyDecimal.lt native_balance total then
          logger_error
            [Lit "Insufficient balance to cover gas cost and transfer amount: ";
             FNum v] ;;
          raise bare_raise
        else ret true
    end.

(** [contract.functions.transfer(recipient, amount).build_transaction(t)]:
    a dictionary without [gas] has it estimated on the call, and a call
    that reverts fails there. *)
Definition build_transfer (c : AsyncContract) (recipient : string)
    (amount : Z) (t : TxParams) : M TxParams :=
  let t' := set_call (c_address c) (Transfer recipient amount) t in
  match gas t' with
  | Some _ => ret t'
  | None =>
      g <- lift (estimate_gas w3 t') ;;
      ret (set_gas g t')
  end.

(** The fee fields and the multiplier of the gas cost. *)
Definition fee_fields (t : TxParams) : M (TxParams * Z) :=
  if USE_EIP_1559 then
    base_fee <- lift (gas_price w3) ;;
    prio <- lift (max_priority_fee w3) ;;
    max_fee <- lift (PyFloat.int_mul_1_05 (base_fee + prio)) ;;
    ret (set_fees_1559 prio max_fee t, max_fee)
  else
    fetched <- lift (gas_price w3) ;;
    price <- lift (PyFloat.int_mul_1_05 fetched) ;;
    ret (set_gasPrice price t, price).

Definition prepare_transaction (recipient : string) (v : num) : M TxParams :=
  recipient <- lift (to_checksum_address w3 recipient) ;;
  chain <- lift (chain_id w3) ;;
  me <- gets address ;;
  count <- lift (get_transaction_count w3 me) ;;
  let transaction :=
    {| chainId := Some chain; nonce := Some count; from_ := Some me;
       value := None; maxPriorityFeePerGas := None; maxFeePerGas := None;
       gasPrice := None; to_ := None; data := None; gas := None |} in
  c <- gets contract ;;
  transaction <-
    match c with
    | None =>
        wei <- lift (Web3.to_wei v Web3.ether) ;;
        ret (set_value wei transaction)
    | Some _ => ret transaction
    end ;;
  fees <- fee_fields transaction ;;
  let transaction := fst fees in
  let gas_cost_multiplier := snd fees in
  c <- gets contract ;;
  transaction <-
    match c with
    | Some c =>
        on_contract_logic_error
          (decimals <- lift (call_decimals w3 (c_address c)) ;;
           amount <- to_wei v decimals ;;
           build_transfer c recipient amount transaction)
          (fun error =>
             logger_error [Lit "Transaction failed: "; FStr error])
    | None => ret transaction
    end ;;
  gas_limit <- lift (estimate_gas w3 transaction) ;;
  let transaction := set_gas gas_limit transaction in
  gas_cost <- lift (Web3.from_wei (gas_limit * gas_cost_multiplier)
                      Web3.ether) ;;
  enough <- _ensure_sufficient_funds v gas_cost ;;
  if negb enough then
    logger_error [Lit "Insufficient funds"] ;;
    raise bare_raise
  else ret transaction.

Definition sign_and_send_transaction (transaction : TxParams) : M string :=
  on_invalid_transaction
    (key <- gets private_key ;;
     signed_transaction <- lift (sign_transaction w3 transaction key) ;;
     print [Lit "Transaction signed"] ;;
     tx_hash <- lift (send_raw_transaction w3 signed_transaction) ;;
     print [Lit "Transaction on Explorer: "; FStr BASE_EXPLORER_URL;
            Lit "/tx/"; FStr tx_hash] ;;
     ret tx_hash)
    (fun error => logger_error [Lit "Transaction failed: "; FStr error]).

Definition wait_for_transaction (tx_hash : string) : M TxReceipt :=
  on_time_exhausted
    (lift (wait_for_transaction_receipt w3 tx_hash))
    (logger_error [Lit "Transaction failed to be mined in 120 seconds"]).

End Methods.

(** ** Calls on a client, one after another *)

Inductive method : Type :=
| SetContract (contract_address : string)
| ToWei (v : num) (decimals : Z)
| FromWei (v : Z) (decimals : Z)
| PrepareTransaction (recipient : string) (v : num)
| SignAndSendTransaction (transaction : TxParams)
| WaitForTransaction (tx_hash : string)
| EnsureSufficientFunds (v gas_cost : num)
| LoadAbi (path : string).

(** The state a call leaves behind, whether it returns or raises. *)
Definition call (eip : bool) (url : string) (w3 : rpc) (m : method)
    (s : state) : state :=
  match m with
  | SetContract a => snd (set_contract w3 a s)
  | ToWei v d => snd (to_wei v d s)
  | FromWei v d => snd (from_wei v d s)
  | PrepareTransaction r v => snd (prepare_transaction eip w3 r v s)
  | SignAndSendTransaction t => snd (sign_and_send_transaction url w3 t s)
  | WaitForTransaction h => snd (wait_for_transaction w3 h s)
  | EnsureSufficientFunds v g => snd (_ensure_sufficient_funds w3 v g s)
  | LoadAbi p => snd (_load_abi w3 p s)
  end.

Definition calls (eip : bool) (url : string) (w3 : rpc) (ms : list method)
    (s : state) : state :=
  fold_left (fun s m => call eip url w3 m s) ms s.

(** ** Vocabulary of the properties *)

(** The lines the funds check writes. *)
Definition native_balance_line (bal : num) : event :=
  Stdout [Lit "Native balance: "; FNum bal].
Definition contract_balance_line (bal : num) : event :=
  Stdout [Lit "Contract balance: "; FNum bal].
Definition gas_shortfall (gas_cost : num) : event :=
  LoggerError [Lit "Insufficient balance to cover gas cost: "; FNum gas_cost].
Definition token_shortfall (bal : num) : event :=
  LoggerError [Lit "Insufficient contract balance: "; FNum bal].
Definition combined_shortfall (v : num) : event :=
  LoggerError
    [Lit "Insufficient balance to cover gas cost and transfer amount: ";
     FNum v].

(** The line of the branch of [prepare_transaction] taken when the funds
    check returns a false value. *)
Definition fallback_line : event := LoggerError [Lit "Insufficient funds"].


(** [m] leaves [self] alone, adds only output lines satisfying [P], and
    returns only results satisfying [R]. *)
Definition keeps {A} (P : event -> Prop) (R : A -> Prop) (m : M A) : Prop :=
  forall s,
    self (snd (m s)) = self s /\
    (exists l, out (snd (m s)) = out s ++ l /\ Forall P l) /\
    (forall a, fst (m s) = Return a -> R a).

Definition anything {A} : A -> Prop := fun _ => True.

(** The spec's formula for the marked-up fee, [ceil(n * 1.05)], in exact
    arithmetic. *)
Definition spec_ceil_1_05 (n : Z) : Z := - ((- (21 * n)) / 20).

(** ** Sample collaborators and clients *)

Definition wei_of_ether (n : Z) : Z := n * 10 ^ 18.

(** A whole number [n] of ether, not 0, as [from_wei] returns it. *)
Definition in_ether (n : Z) : num := PyDec n 0.

(** An endpoint that answers every call: the fetched gas price and priority
    fee, the sender's native balance, the token's balance and decimals, and
    the status of the receipt if the transaction is mined before the wait
    times out. *)
Definition sample_rpc (price prio balance token_balance decimals : Z)
    (mined : option Z) : rpc :=
  {| to_checksum_address := fun a => Return a;
     chain_id := Return 1;
     get_transaction_count := fun _ => Return 7;
     gas_price := Return price;
     max_priority_fee := Return prio;
     estimate_gas := fun _ => Return 21000;
     get_balance := fun _ => Return balance;
     read_abi := fun _ => Return "[]"%string;
     validate_abi := fun _ => Return tt;
     call_decimals := fun _ => Return decimals;
     call_balanceOf := fun _ _ => Return token_balance;
     sign_transaction := fun _ _ => Return "0xf86b"%string;
     send_raw_transaction := fun _ => Return "0x5c50"%string;
     wait_for_transaction_receipt := fun _ =>
       match mined with
       | Some st => Return {| status := st |}
       | None => Raise TimeExhausted
       end |}.

Definition sample_token : AsyncContract :=
  {| c_address := "0xToken"; c_abi := "[]" |}.

Definition unbound_client : Client :=
  {| private_key := "0xkey"; address := "0xSender";
     contract := None; contract_address := None |}.

Definition bound_client : Client :=
  {| private_key := "0xkey"; address := "0xSender";
     contract := Some sample_token;
     contract_address := Some "0xToken"%string |}.

Definition fresh (c : Client) : state := {| self := c; out := [] |}.

(** The draft for 1.5 ether from [unbound_client] under EIP-1559 with a gas
    price of 100 and a priority fee of 10, and the draft for 1.5 tokens of 6
    decimals from [bound_client] under the legacy mode with a gas price of
    100. *)
Definition sample_native_draft : TxParams :=
  {| chainId := Some 1; nonce := Some 7; from_ := Some "0xSender"%string;
     value := Some 1500000000000000000;
     maxPriorityFeePerGas := Some 10; maxFeePerGas := Some 115;
     gasPrice := None; to_ := None; data := None; gas := Some 21000 |}.

Definition sample_token_draft : TxParams :=
  {| chainId := Some 1; nonce := Some 7; from_ := Some "0xSender"%string;
     value := Some 0;
     maxPriorityFeePerGas := None; maxFeePerGas := None;
     gasPrice := Some 105; to_ := Some "0xToken"%string;
     data := Some (Transfer "0xRecipient" 1500000); gas := Some 21000 |}.

(** ** More vocabulary and samples *)

(** The dictionary [prepare_transaction] starts from. *)
Definition initial_draft (chain count : Z) (me : string) : TxParams :=
  {| chainId := Some chain; nonce := Some count; from_ := Some me;
     value := None; maxPriorityFeePerGas := None; maxFeePerGas := None;
     gasPrice := None; to_ := None; data := None; gas := None |}.

(** The draft for 1.5 ether under the legacy mode when the endpoint quotes a
    gas price of 19 wei. *)
Definition sample_low_fee_draft : TxParams :=
  {| chainId := Some 1; nonce := Some 7; from_ := Some "0xSender"%string;
     value := Some 1500000000000000000;
     maxPriorityFeePerGas := None; maxFeePerGas := None;
     gasPrice := Some 19; to_ := None; data := None; gas := Some 21000 |}.

(** [w] with other answers for the address normaliser, the gas estimate,
    the signer and the broadcast, and another status in its receipts. *)
Definition override (w : rpc)
    (checksum : string -> outcome string)
    (estimate : TxParams -> outcome Z)
    (sign : TxParams -> string -> outcome string)
    (send : string -> outcome string)
    (mined_status : Z) : rpc :=
  {| to_checksum_address := checksum;
     chain_id := chain_id w;
     get_transaction_count := get_transaction_count w;
     gas_price := gas_price w;
     max_priority_fee := max_priority_fee w;
     estimate_gas := estimate;
     get_balance := get_balance w;
     read_abi := read_abi w;
     validate_abi := validate_abi w;
     call_decimals := call_decimals w;
     call_balanceOf := call_balanceOf w;
     sign_transaction := sign;
     send_raw_transaction := send;
     wait_for_transaction_receipt := fun h =>
       match wait_for_transaction_receipt w h with
       | Return _ => Return {| status := mined_status |}
       | Raise e => Raise e
       end |}.

(** [w] as an endpoint of a chain without EIP-1559: it has no answer to
    [eth_maxPriorityFeePerGas]. *)
Definition without_priority_fee (w : rpc) : rpc :=
  {| to_checksum_address := to_checksum_address w;
     chain_id := chain_id w;
     get_transaction_count := get_transaction_count w;
     gas_price := gas_price w;
     max_priority_fee := Raise (OtherError "MethodUnavailable");
     estimate_gas := estimate_gas w;
     get_balance := get_balance w;
     read_abi := read_abi w;
     validate_abi := validate_abi w;
     call_decimals := call_decimals w;
     call_balanceOf := call_balanceOf w;
     sign_transaction := sign_transaction w;
     send_raw_transaction := send_raw_transaction w;
     wait_for_transaction_receipt := wait_for_transaction_receipt w |}.

(** [w] beside an ABI file that holds JSON but no ABI: the library
    refuses to make a contract of it. *)
Definition with_invalid_abi (w : rpc) : rpc :=
  {| to_checksum_address := to_checksum_address w;
     chain_id := chain_id w;
     get_transaction_count := get_transaction_count w;
     gas_price := gas_price w;
     max_priority_fee := max_priority_fee w;
     estimate_gas := estimate_gas w;
     get_balance := get_balance w;
     read_abi := read_abi w;
     validate_abi := fun _ => Raise (ValueError [Lit "'abi' is not a list"]);
     call_decimals := call_decimals w;
     call_balanceOf := call_balanceOf w;
     sign_transaction := sign_transaction w;
     send_raw_transaction := send_raw_transaction w;
     wait_for_transaction_receipt := wait_for_transaction_receipt w |}.

(** An endpoint that refuses the broadcast, and one on which every gas
    estimate reverts. *)
Definition rejecting_rpc : rpc :=
  override (sample_rpc 100 10 (wei_of_ether 5) 30000000 6 None)
    (fun a => Return a) (fun _ => Return 21000)
    (fun _ _ => Return "0xf86b"%string)
    (fun _ => Raise (InvalidTransaction "nonce too low")) 1.

Definition reverting_rpc : rpc :=
  override (sample_rpc 100 10 (wei_of_ether 5) 30000000 6 None)
    (fun a => Return a)
    (fun _ => Raise (ContractLogicError "execution reverted"))
    (fun _ _ => Return "0xf86b"%string)
    (fun _ => Return "0x5c50"%string) 1.

(** The lines of [sign_and_send_transaction] and of a logged revert. *)
Definition signed_line : event := Stdout [Lit "Transaction signed"].
Definition explorer_line (url tx_hash : string) : event :=
  Stdout [Lit "Transaction on Explorer: "; FStr url; Lit "/tx/"; FStr tx_hash].
Definition transaction_failed_line (reason : string) : event :=
  LoggerError [Lit "Transaction failed: "; FStr reason].

(** ** [main.py] *)

(** What is typed at the five prompts of [main]. *)
Record console : Type := {
  private_key_line : string;
  proxy_line : string;
  contract_address_line : string;
  recipient_line : string;
  amount_line : string
}.

(** What [main] and [Client.__init__] take from the libraries: the address
    of a private key ([web3.eth.account.from_key(key).address]) and the
    reading of a [Decimal] from text, here of a finite one. *)
Record host : Type := {
  address_from_key : string -> outcome string;
  decimal_of_string : string -> outcome num
}.

(** [Client(private_key, proxy)]: the proxy only configures the transport. *)
Definition __init__ (h : host) (key : string) (proxy : option string)
  : outcome Client :=
  match address_from_key h key with
  | Return a =>
      Return {| private_key := key; address := a;
                contract := None; contract_address := None |}
  | Raise e => Raise e
  end.

(** [x if x else None] for a string. *)
Definition non_empty (x : string) : option string :=
  match x with
  | EmptyString => None
  | _ => Some x
  end.

(** The prompt [input] writes before it reads. *)
Definition prompt (m : string) : event := Stdout [Lit m].

(** The two verdicts of [main]. *)
Definition succeeded_line : event := Stdout [Lit "Transaction succeeded"].
Definition failed_line : event := Stdout [Lit "Transaction failed"].

Definition main (eip : bool) (url : string) (w3 : rpc) (h : host)
    (typed : console) : outcome unit * list event :=
  let asked :=
    [prompt "Enter private key: "; prompt "Enter proxy or leave empty: ";
     prompt "Enter contract address or leave empty to use native token: "] in
  let proxy := non_empty (proxy_line typed) in
  let contract_address := non_empty (contract_address_line typed) in
  match __init__ h (private_key_line typed) proxy with
  | Raise e => (Raise e, asked)
  | Return web3_client =>
      let run :=
        (match contract_address with
         | Some a => set_contract w3 a
         | None => ret tt
         end ;;
         emit (prompt "Enter recipient address: ") ;;
         emit (prompt "Enter amount to transfer: ") ;;
         amount_to_transfer <- lift (decimal_of_string h (amount_line typed)) ;;
         transcation <- prepare_transaction eip w3 (recipient_line typed)
                          amount_to_transfer ;;
         tx_hash <- sign_and_send_transaction url w3 transcation ;;
         tx_receipt <- wait_for_transaction w3 tx_hash ;;
         if status tx_receipt =? 1 then emit succeeded_line
         else emit failed_line)
          {| self := web3_client; out := asked |} in
      (fst run, out (snd run))
  end.

(** The lines the methods of [Client] write. *)
Inductive method_line : event -> Prop :=
| line_logged m : method_line (LoggerError m)
| line_native_balance b : method_line (native_balance_line b)
| line_contract_balance b : method_line (contract_balance_line b)
| line_signed : method_line signed_line
| line_explorer url h : method_line (explorer_line url h).

Definition sample_host : host :=
  {| address_from_key := fun _ => Return "0xSender"%string;
     decimal_of_string := fun _ => Return (PyDec 15 (-1)) |}.

Definition sample_console (token : string) : console :=
  {| private_key_line := "0xkey"; proxy_line := "";
     contract_address_line := token; recipient_line := "0xRecipient";
     amount_line := "1.5" |}.

Definition not_a_verdict (e : event) : Prop :=
  e <> succeeded_line /\ e <> failed_line.

(** * Properties *)

(** ** Binary64 rounding: [int(n * 1.05)] *)

(** The mantissa of [lit_1_05] is within half a unit of [21/20 * 2^52]: it
    is the double nearest to 1.05. *)
Lemma lit_1_05_nearest :
  PyFloat.lit_1_05 = S754_finite false 4728779608739021 (-52) /\
  Z.abs (20 * 4728779608739021 - 21 * 2 ^ 52) <= 10.
Proof. split; [reflexivity | vm_compute; discriminate]. Qed.

(** Beyond 2^53 the conversion of the [int] rounds too. *)
Example int_mul_1_05_large :
  PyFloat.int_mul_1_05 (2 ^ 60 + 1) = Return 1210567579837189376.
Proof. vm_compute. reflexivity. Qed.

Lemma iter_pos_iter {A} (f : A -> A) p : forall x, iter_pos f p x = Pos.iter f x p.
Proof.
  induction p as [p IH | p IH |]; intro x; simpl.
  - rewrite !IH. rewrite <- !Pos.iter_swap. reflexivity.
  - rewrite !IH. reflexivity.
  - reflexivity.
Qed.

Lemma iter_pos_succ {A} (f : A -> A) p x :
  iter_pos f (Pos.succ p) x = f (iter_pos f p x).
Proof. rewrite !iter_pos_iter. apply Pos.iter_succ. Qed.

Lemma digits2_size p : digits2_pos p = Pos.size p.
Proof. induction p; simpl; congruence. Qed.

Lemma digits2_bounds p :
  2 ^ (Zpos (digits2_pos p) - 1) <= Zpos p < 2 ^ Zpos (digits2_pos p).
Proof.
  rewrite digits2_size. split.
  - pose proof (Pos.size_le p) as H.
    assert (Zpos (2 ^ Pos.size p) <= Zpos p~0) by exact H.
    rewrite Pos2Z.inj_pow in H0.
    replace (Zpos (Pos.size p)) with (Z.succ (Zpos (Pos.size p) - 1)) in H0 by lia.
    rewrite Z.pow_succ_r in H0 by lia. lia.
  - pose proof (Pos.size_gt p) as H.
    assert (Zpos p < Zpos (2 ^ Pos.size p)) by exact H.
    now rewrite Pos2Z.inj_pow in H0.
Qed.

Lemma digits2_unique p d :
  2 ^ (d - 1) <= Zpos p < 2 ^ d -> Zpos (digits2_pos p) = d.
Proof.
  intros [Hlo Hhi]. pose proof (digits2_bounds p) as [Blo Bhi].
  assert (0 < d).
  { destruct (Z_lt_le_dec 0 d); auto. 
    assert (2 ^ d <= 2 ^ 0) by (apply Z.pow_le_mono_r; lia). simpl in *. lia. }
  destruct (Z.lt_trichotomy (Zpos (digits2_pos p)) d) as [Hc | [Hc | Hc]]; auto.
  - assert (2 ^ Zpos (digits2_pos p) <= 2 ^ (d - 1)) by (apply Z.pow_le_mono_r; lia). lia.
  - assert (2 ^ d <= 2 ^ (Zpos (digits2_pos p) - 1)) by (apply Z.pow_le_mono_r; lia). lia.
Qed.

Lemma shr_1_nonneg m r s :
  0 <= m ->
  shr_m (shr_1 (Build_shr_record m r s)) = m / 2 /\
  shr_r (shr_1 (Build_shr_record m r s)) = Z.odd m.
Proof.
  intros Hm. destruct m as [| p | p]; [ | | lia].
  - split; reflexivity.
  - destruct p as [p | p |]; simpl shr_1; cbn [shr_m shr_r]; split; try reflexivity.
    + apply Z.div_unique with (r := 1); lia.
    + apply Z.div_unique with (r := 0); lia.
Qed.

Lemma iter_shr_1 m p :
  0 <= m ->
  let rec := iter_pos shr_1 p (Build_shr_record m false false) in
  shr_m rec = m / 2 ^ Zpos p /\
  (shr_r rec = true -> 2 ^ (Zpos p - 1) <= m mod 2 ^ Zpos p).
Proof.
  intros Hm. induction p as [| p IH] using Pos.peano_ind.
  - cbn zeta. cbn [iter_pos]. destruct (shr_1_nonneg m false false Hm) as [E1 E2].
    rewrite E1, E2. split; [reflexivity |].
    intros Ho. change (2 ^ (1 - 1)) with 1. change (2 ^ 1) with 2.
    rewrite Zmod_odd, Ho. lia.
  - cbn zeta in *. rewrite iter_pos_succ.
    destruct (iter_pos shr_1 p (Build_shr_record m false false)) as [mp rp sp] eqn:E.
    cbn [shr_m shr_r] in IH. destruct IH as [IHm _]. subst mp.
    assert (Hq : 0 <= m / 2 ^ Zpos p) by (apply Z.div_pos; lia).
    destruct (shr_1_nonneg (m / 2 ^ Zpos p) rp sp Hq) as [E1 E2].
    rewrite E1, E2. rewrite Pos2Z.inj_succ.
    rewrite Z.pow_succ_r by lia.
    split.
    + rewrite Z.div_div by lia. f_equal. lia.
    + intros Ho. replace (Z.succ (Zpos p) - 1) with (Zpos p) by lia.
      assert (Ho' : (m / 2 ^ Zpos p) mod 2 = 1) by (rewrite Zmod_odd, Ho; reflexivity).
      clear Ho; rename Ho' into Ho.
      assert (P : 0 < 2 ^ Zpos p) by lia.
      pose proof (Z.div_mod m (2 ^ Zpos p) ltac:(lia)) as D1.
      pose proof (Z.mod_pos_bound m (2 ^ Zpos p) P) as B1.
      pose proof (Z.div_mod (m / 2 ^ Zpos p) 2 ltac:(lia)) as D2.
      rewrite Ho in D2.
      assert (m mod (2 * 2 ^ Zpos p) = 2 ^ Zpos p + m mod 2 ^ Zpos p).
      { symmetry. apply Z.mod_unique with (q := m / 2 ^ Zpos p / 2); nia. }
      lia.
Qed.

Lemma fexp_normal e :
  -1074 <= e - 53 -> fexp 53 1024 e = e - 53.
Proof. intros H. unfold fexp, emin. lia. Qed.

Lemma binary_round_aux_exact s mx e :
  Zpos (digits2_pos mx) = 53 -> -1074 <= e <= 971 ->
  binary_round_aux 53 1024 s (Zpos mx) e loc_Exact = S754_finite s mx e.
Proof.
  intros Hd He. unfold binary_round_aux, shr_fexp.
  cbn [Zdigits2]. rewrite Hd, fexp_normal by lia.
  replace (53 + e - 53 - e) with 0 by lia.
  cbn [shr shr_record_of_loc loc_of_shr_record shr_m shr_r shr_s round_nearest_even Zdigits2].
  rewrite Hd, fexp_normal by lia.
  replace (53 + e - 53 - e) with 0 by lia.
  cbn [shr shr_record_of_loc shr_m].
  replace (e <=? 1024 - 53) with true by (symmetry; apply Z.leb_le; lia).
  reflexivity.
Qed.

Lemma iter_xO m d : Zpos (Pos.iter xO m d) = Zpos m * 2 ^ Zpos d.
Proof.
  induction d as [| d IH] using Pos.peano_ind.
  - cbn [Pos.iter]. change (2 ^ 1) with 2. lia.
  - rewrite Pos.iter_succ, Pos2Z.inj_xO, IH, Pos2Z.inj_succ, Z.pow_succ_r; lia.
Qed.

(** [float(n)] is exact for a positive [n] below 2^52: the mantissa is [n]
    shifted to 53 bits. *)
Lemma of_int_exact n (p : positive) :
  n = Zpos p -> n < 2 ^ 52 ->
  let d := 53 - Zpos (digits2_pos p) in
  PyFloat.of_int n = Return (S754_finite false (Z.to_pos (n * 2 ^ d)) (- d)).
Proof.
  intros -> Hn d.
  pose proof (digits2_bounds p) as [Blo Bhi].
  assert (Hd : 0 < d).
  { unfold d. destruct (Z_lt_le_dec (Zpos (digits2_pos p)) 53) as [|Hc]; [lia|].
    assert (2 ^ 52 <= 2 ^ (Zpos (digits2_pos p) - 1)) by (apply Z.pow_le_mono_r; lia). lia. }
  unfold PyFloat.of_int, binary_normalize, binary_round, shl_align.
  rewrite fexp_normal by (unfold PyFloat.prec; lia).
  unfold PyFloat.prec, PyFloat.emax.
  replace (Zpos (digits2_pos p) + 0 - 53 - 0) with (- d) by (unfold d; lia).
  destruct d as [| dp | dp] eqn:Ed; try lia.
  cbn [Z.opp].
  replace (Zpos (digits2_pos p) + 0 - 53) with (Zneg dp) by lia.
  assert (Hm : Zpos (Pos.iter xO p dp) = Zpos p * 2 ^ Zpos dp) by apply iter_xO.
  rewrite binary_round_aux_exact.
  - f_equal. f_equal. rewrite <- Hm. reflexivity.
  - apply digits2_unique. rewrite Hm. 
    replace 53 with (Zpos (digits2_pos p) + Zpos dp) by lia.
    replace (Zpos (digits2_pos p) + Zpos dp - 1) with (Zpos (digits2_pos p) - 1 + Zpos dp) by lia.
    rewrite !Z.pow_add_r by lia. nia.
  - lia.
Qed.

Lemma second_stage s m' e :
  2 ^ 52 <= m' <= 2 ^ 53 -> -1074 <= e -> e + 1 <= 971 ->
  exists m'' e'',
    (let '(mrs, e1) := shr_fexp 53 1024 m' e loc_Exact in
     match shr_m mrs with
     | Z0 => S754_zero s
     | Zpos m => if e1 <=? 1024 - 53 then S754_finite s m e1 else S754_infinity s
     | Zneg _ => S754_nan
     end) = S754_finite s m'' e'' /\
    ((Zpos m'' = m' /\ e'' = e) \/ (m' = 2 * Zpos m'' /\ e'' = e + 1)).
Proof.
  intros Hm He1 He2.
  destruct m' as [| mp | mp]; try lia.
  destruct (Z.eq_dec (Zpos mp) (2 ^ 53)) as [Heq | Hne].
  - injection Heq as ->. exists (Z.to_pos (2 ^ 52)), (e + 1).
    unfold shr_fexp. cbn [Zdigits2].
    change (Zpos (digits2_pos 9007199254740992)) with 54.
    rewrite fexp_normal by lia.
    replace (54 + e - 53 - e) with 1 by lia.
    cbn [shr iter_pos shr_record_of_loc shr_1 shr_m].
    replace (e + 1 <=? 1024 - 53) with true by (symmetry; apply Z.leb_le; lia).
    split; [reflexivity | right; split; reflexivity].
  - exists mp, e.
    assert (Hd : Zpos (digits2_pos mp) = 53).
    { apply digits2_unique. change (53 - 1) with 52. lia. }
    unfold shr_fexp. cbn [Zdigits2]. rewrite Hd, fexp_normal by lia.
    replace (53 + e - 53 - e) with 0 by lia.
    cbn [shr shr_record_of_loc shr_m].
    replace (e <=? 1024 - 53) with true by (symmetry; apply Z.leb_le; lia).
    split; [reflexivity | left; split; reflexivity].
Qed.

Lemma binary_round_aux_shift s mx e (kp : positive) :
  Zpos (digits2_pos mx) = 53 + Zpos kp ->
  -1074 <= e + Zpos kp -> e + Zpos kp + 1 <= 971 ->
  exists m' m'' e'',
    Zpos mx / 2 ^ Zpos kp <= m' /\
    m' * 2 ^ Zpos kp <= Zpos mx + 2 ^ (Zpos kp - 1) /\
    binary_round_aux 53 1024 s (Zpos mx) e loc_Exact = S754_finite s m'' e'' /\
    ((Zpos m'' = m' /\ e'' = e + Zpos kp) \/
     (m' = 2 * Zpos m'' /\ e'' = e + Zpos kp + 1)).
Proof.
  intros Hd He1 He2.
  pose proof (digits2_bounds mx) as [Blo Bhi]. rewrite Hd in Blo, Bhi.
  replace (53 + Zpos kp - 1) with (52 + Zpos kp) in Blo by lia.
  rewrite Z.pow_add_r in Blo, Bhi by lia.
  assert (P : 0 < 2 ^ Zpos kp) by lia.
  set (q := Zpos mx / 2 ^ Zpos kp).
  assert (Hq : 2 ^ 52 <= q < 2 ^ 53).
  { unfold q. split.
    - apply Z.div_le_lower_bound; lia.
    - apply Z.div_lt_upper_bound; lia. }
  pose proof (Z.div_mod (Zpos mx) (2 ^ Zpos kp) ltac:(lia)) as DM.
  pose proof (Z.mod_pos_bound (Zpos mx) (2 ^ Zpos kp) P) as MB.
  fold q in DM.
  assert (Hhalf : 2 * 2 ^ (Zpos kp - 1) = 2 ^ Zpos kp).
  { rewrite <- Z.pow_succ_r by lia. f_equal. lia. }
  destruct (iter_shr_1 (Zpos mx) kp ltac:(lia)) as [Im Ir].
  unfold binary_round_aux. unfold shr_fexp at 1. cbn [Zdigits2].
  rewrite Hd, fexp_normal by lia.
  replace (53 + Zpos kp + e - 53 - e) with (Zpos kp) by lia.
  cbn [shr shr_record_of_loc].
  destruct (iter_pos shr_1 kp (Build_shr_record (Zpos mx) false false))
    as [m0 r0 s0] eqn:Eit.
  cbn [shr_m shr_r] in Im, Ir. fold q in Im. subst m0.
  set (m' := round_nearest_even q
               (loc_of_shr_record (Build_shr_record q r0 s0))).
  assert (Hm' : q <= m' /\ m' * 2 ^ Zpos kp <= Zpos mx + 2 ^ (Zpos kp - 1)
                /\ m' <= q + 1).
  { unfold m'. destruct r0, s0; cbn [loc_of_shr_record round_nearest_even].
    - specialize (Ir eq_refl). nia.
    - specialize (Ir eq_refl). destruct (Z.even q); nia.
    - nia.
    - nia. }
  destruct Hm' as (Hlo & Hup & Hle).
  cbn [shr_m].
  destruct (second_stage s m' (e + Zpos kp) ltac:(lia) ltac:(lia) ltac:(lia))
    as (m'' & e'' & Hres & Hcase).
  exists m', m'', e''. repeat split; trivial.
Qed.

Lemma pow2_lt_inv a b : 0 <= b -> 2 ^ a < 2 ^ b -> a < b.
Proof.
  intros Hb H. destruct (Z_lt_le_dec a b) as [|Hc]; [assumption|].
  assert (2 ^ b <= 2 ^ a) by (apply Z.pow_le_mono_r; lia). lia.
Qed.

(** Below 2^48 the double product, truncated, is the exact floor of
    [21 n / 20]: the error of the literal and of the rounding together stay
    under 1/20. *)
Lemma int_mul_1_05_floor n :
  0 <= n < 2 ^ 48 -> PyFloat.int_mul_1_05 n = Return (21 * n / 20).
Proof.
  intros [Hn0 Hn].
  destruct n as [| p | p]; [reflexivity | | lia].
  unfold PyFloat.int_mul_1_05.
  rewrite (of_int_exact (Zpos p) p eq_refl) by lia.
  pose proof (digits2_bounds p) as [Blo Bhi].
  set (L := Zpos (digits2_pos p)) in *.
  assert (HL : 1 <= L <= 48).
  { split; [unfold L; lia|]. 
    assert (L - 1 < 48) by (apply pow2_lt_inv; lia). lia. }
  set (d := 53 - L).
  assert (Hd : 5 <= d <= 52) by (unfold d; lia).
  set (A := 2 ^ d).
  assert (HA : 0 < A) by (unfold A; lia).
  assert (HM : 2 ^ 52 <= Zpos p * A < 2 ^ 53).
  { unfold A. replace 52 with (L - 1 + d) by (unfold d; lia).
    replace 53 with (L + d) by (unfold d; lia).
    rewrite !Z.pow_add_r by lia. nia. }
  destruct (Zpos p * A) as [| M | M] eqn:EM; try lia.
  cbn [Z.to_pos].
  unfold PyFloat.mul, PyFloat.lit_1_05, SFmul, PyFloat.prec, PyFloat.emax.
  cbn [xorb].
  set (C := 4728779608739021%positive).
  pose proof (digits2_bounds (M * C)) as [Plo Phi].
  set (LP := Zpos (digits2_pos (M * C))) in *.
  rewrite Pos2Z.inj_mul in Plo, Phi.
  assert (HC : Zpos C = 4728779608739021) by reflexivity.
  assert (HP : 2 ^ 104 <= Zpos M * Zpos C < 2 ^ 106).
  { change (2 ^ 104) with (2 ^ 52 * 2 ^ 52).
    change (2 ^ 106) with (2 ^ 53 * 2 ^ 53). rewrite HC. nia. }
  assert (HLP : 105 <= LP <= 106).
  { assert (0 < LP) by (unfold LP; lia).
    assert (104 < LP) by (apply pow2_lt_inv; lia).
    assert (LP - 1 < 106) by (apply pow2_lt_inv; lia). lia. }
  destruct (LP - 53) as [| kp | kp] eqn:Ek; try lia.
  destruct (binary_round_aux_shift false (M * C) (- d + -52) kp)
    as (m' & m'' & e'' & Hlo & Hup & Hres & Hcase).
  { fold LP. lia. }
  { lia. }
  { lia. }
  rewrite Hres. unfold PyFloat.to_int, cond_Zopp.
  rewrite Pos2Z.inj_mul in Hlo, Hup.
  set (B := 2 ^ Zpos kp) in *.
  set (D := 2 ^ (d + 52 - Zpos kp)).
  assert (HB : 0 < B) by (unfold B; lia).
  assert (HD : 16 <= D).
  { unfold D. change 16 with (2 ^ 4). apply Z.pow_le_mono_r; lia. }
  assert (HDB : D * B = 2 ^ 52 * A).
  { unfold D, B, A. rewrite <- !Z.pow_add_r by lia. f_equal. lia. }
  assert (Hhalf : 2 * 2 ^ (Zpos kp - 1) = B).
  { unfold B. rewrite <- Z.pow_succ_r by lia. f_equal. lia. }
  set (K := 21 * Zpos p / 20).
  pose proof (Z.div_mod (21 * Zpos p) 20 ltac:(lia)) as DK.
  pose proof (Z.mod_pos_bound (21 * Zpos p) 20 ltac:(lia)) as MK.
  fold K in DK.
  assert (Hn48 : Zpos p < 2 ^ 48) by lia.
  assert (Hres1 : K * D <= m' < (K + 1) * D).
  { split.
    - assert (H20 : 20 * (K * A) <= 21 * (Zpos p * A)).
      { rewrite !Z.mul_assoc. apply Z.mul_le_mono_nonneg_r; lia. }
      assert (K * D * B <= Zpos M * Zpos C).
      { rewrite <- Z.mul_assoc, HDB, <- EM, HC.
        change (2 ^ 52) with 4503599627370496.
        replace (K * (4503599627370496 * A))
          with (4503599627370496 * (K * A)) by ring.
        lia. }
      apply Z.le_trans with (Zpos M * Zpos C / B); [|assumption].
      apply Z.div_le_lower_bound; lia.
    - assert (H20 : 21 * (Zpos p * A) + A <= 20 * ((K + 1) * A)).
      { replace (21 * (Zpos p * A) + A) with ((21 * Zpos p + 1) * A) by ring.
        rewrite Z.mul_assoc. apply Z.mul_le_mono_nonneg_r; lia. }
      assert (H16 : 16 * B <= D * B) by (apply Z.mul_le_mono_nonneg_r; lia).
      assert (H48 : Zpos p * A < 281474976710656 * A).
      { apply Z.mul_lt_mono_pos_r; [assumption|]. exact Hn48. }
      assert (m' * B < (K + 1) * D * B).
      { rewrite <- (Z.mul_assoc (K + 1)), HDB.
        rewrite HDB in H16. rewrite <- EM, HC in Hup.
        change (2 ^ 52) with 4503599627370496 in *.
        replace ((K + 1) * (4503599627370496 * A))
          with (4503599627370496 * ((K + 1) * A)) by ring.
        replace (Zpos p * A * 4728779608739021)
          with (4728779608739021 * (Zpos p * A)) in Hup by ring.
        lia. }
      apply Z.mul_lt_mono_pos_r with (p := B); assumption. }
  f_equal.
  destruct Hcase as [[Hm'' He''] | [Hm'' He'']].
  - subst e''. replace (- d + -52 + Zpos kp) with (- (d + 52 - Zpos kp)) by lia.
    destruct (d + 52 - Zpos kp) as [| pe | pe] eqn:Epe; try lia.
    cbn [Z.opp]. rewrite Hm''. fold D in Epe. 
    symmetry. apply Z.div_unique with (r := m' - K * D); unfold D in *; rewrite ?Epe in *; lia.
  - subst e''.
    replace (- d + -52 + Zpos kp + 1) with (- (d + 52 - Zpos kp - 1)) by lia.
    destruct (d + 52 - Zpos kp - 1) as [| pe | pe] eqn:Epe; try lia.
    cbn [Z.opp].
    assert (HD2 : D = 2 * 2 ^ Zpos pe).
    { unfold D. rewrite <- Z.pow_succ_r by lia. f_equal. lia. }
    symmetry. apply Z.div_unique with (r := Zpos m'' - K * 2 ^ Zpos pe); lia.
Qed.

(** ** Decimal digits and rounding *)

(** Rounding to three digits, half to even, with and without a carry. *)
Example fix_half_even :
  PyDecimal.fix_ 3 12350 2 = Return (PyDec 124 4) /\
  PyDecimal.fix_ 3 12450 2 = Return (PyDec 124 4) /\
  PyDecimal.fix_ 3 99951 0 = Return (PyDec 100 3).
Proof. repeat split. Qed.

(** A sum of 31 digits is rounded to 28. *)
Example add_rounds_to_context :
  PyDecimal.add (PyDec 1 (-30)) (PyInt 1)
  = Return (PyDec 1000000000000000000000000000 (-27)).
Proof. vm_compute. reflexivity. Qed.

Lemma pow10_lt_inv a b : 0 <= b -> 10 ^ a < 10 ^ b -> a < b.
Proof.
  intros Hb H. destruct (Z_lt_le_dec a b) as [|Hc]; [assumption|].
  assert (10 ^ b <= 10 ^ a) by (apply Z.pow_le_mono_r; lia). lia.
Qed.

Lemma count_digits_spec fuel : forall n,
  0 < n < 10 ^ (Z.of_nat fuel + 1) ->
  1 <= PyDecimal.count_digits fuel n /\
  10 ^ (PyDecimal.count_digits fuel n - 1) <= n < 10 ^ PyDecimal.count_digits fuel n.
Proof.
  induction fuel as [| fuel IH]; intros n [Hn0 Hn].
  - cbn [PyDecimal.count_digits]. change (10 ^ (1 - 1)) with 1.
    change (Z.of_nat 0 + 1) with 1 in Hn. lia.
  - cbn [PyDecimal.count_digits]. destruct (n <? 10) eqn:E.
    + apply Z.ltb_lt in E. change (10 ^ (1 - 1)) with 1. change (10 ^ 1) with 10. lia.
    + apply Z.ltb_ge in E.
      rewrite Nat2Z.inj_succ in Hn.
      replace (Z.succ (Z.of_nat fuel) + 1) with (Z.succ (Z.of_nat fuel + 1)) in Hn by lia.
      rewrite Z.pow_succ_r in Hn by lia.
      pose proof (Z.div_mod n 10 ltac:(lia)) as DM.
      pose proof (Z.mod_pos_bound n 10 ltac:(lia)) as MB.
      destruct (IH (n / 10)) as (H1 & Hlo & Hhi); [lia|].
      set (c := PyDecimal.count_digits fuel (n / 10)) in *.
      replace (1 + c - 1) with (Z.succ (c - 1)) by lia.
      replace (1 + c) with (Z.succ c) by lia.
      rewrite !Z.pow_succ_r by lia. lia.
Qed.

Lemma digits10_spec n :
  0 < n ->
  1 <= PyDecimal.digits10 n /\
  10 ^ (PyDecimal.digits10 n - 1) <= n < 10 ^ PyDecimal.digits10 n.
Proof.
  intros Hn. unfold PyDecimal.digits10. rewrite Z.abs_eq by lia.
  apply count_digits_spec. split; [assumption|].
  rewrite Z2Nat.id by apply Z.log2_nonneg.
  pose proof (Z.log2_spec n Hn) as [_ Hhi].
  assert (2 ^ Z.succ (Z.log2 n) <= 10 ^ Z.succ (Z.log2 n)).
  { apply Z.pow_le_mono_l. lia. }
  replace (Z.log2 n + 1) with (Z.succ (Z.log2 n)) by lia. lia.
Qed.

Lemma digits10_le n j : 0 < n < 10 ^ j -> PyDecimal.digits10 n <= j.
Proof.
  intros [Hn Hj]. destruct (digits10_spec n Hn) as (H1 & Hlo & _).
  assert (0 <= j).
  { destruct (Z_lt_le_dec j 0) as [Hc|]; [|assumption].
    rewrite Z.pow_neg_r in Hj by assumption. lia. }
  assert (PyDecimal.digits10 n - 1 < j) by (apply pow10_lt_inv; lia). lia.
Qed.

Lemma Qpow10_nonneg e : 0 <= e -> (Qpower (10 # 1) e == inject_Z (10 ^ e))%Q.
Proof. intros He. rewrite Zpower_Qpower by assumption. reflexivity. Qed.

Lemma Qpow10_neg e : e < 0 -> (Qpower (10 # 1) e == / inject_Z (10 ^ (- e)))%Q.
Proof.
  intros He. replace e with (- (- e)) at 1 by lia.
  rewrite Qpower_opp, Qpow10_nonneg by lia. reflexivity.
Qed.

(** An integer-valued decimal, in integers. *)
Lemma dec_value_int c e n :
  (PyDecimal.value (PyDec c e) == inject_Z n)%Q <->
  (if 0 <=? e then c * 10 ^ e = n else c = n * 10 ^ (- e)).
Proof.
  unfold PyDecimal.value. destruct (0 <=? e) eqn:E.
  - apply Z.leb_le in E. rewrite Qpow10_nonneg by assumption.
    rewrite <- inject_Z_mult. apply inject_Z_injective.
  - apply Z.leb_gt in E. rewrite Qpow10_neg by assumption.
    assert (P : 0 < 10 ^ (- e)) by (apply Z.pow_pos_nonneg; lia).
    assert (NZ : ~ (inject_Z (10 ^ (- e)) == 0)%Q).
    { change 0%Q with (inject_Z 0). rewrite inject_Z_injective. lia. }
    split; intros H.
    + apply inject_Z_injective. rewrite inject_Z_mult, <- H. field. exact NZ.
    + rewrite H, inject_Z_mult. field. exact NZ.
Qed.

Lemma to_integral_int c e n :
  (PyDecimal.value (PyDec c e) == inject_Z n)%Q ->
  PyDecimal.to_integral (PyDec c e) = n.
Proof.
  intros H. apply dec_value_int in H. cbn [PyDecimal.to_integral].
  destruct (0 <=? e) eqn:E; [assumption|].
  apply Z.leb_gt in E. subst c. apply Z.quot_mul.
  assert (0 < 10 ^ (- e)) by (apply Z.pow_pos_nonneg; lia). lia.
Qed.

(** Rounding to 999 digits leaves a wei amount as it is. *)
Lemma fix_999_wei c e n :
  0 < n <= Web3.MAX_WEI ->
  (PyDecimal.value (PyDec c e) == inject_Z n)%Q ->
  exists c' e', PyDecimal.fix_ 999 c e = Return (PyDec c' e') /\
                (PyDecimal.value (PyDec c' e') == inject_Z n)%Q.
Proof.
  intros [Hn0 Hn] Hv. apply dec_value_int in Hv.
  assert (Hn78 : n < 10 ^ 78) by (unfold Web3.MAX_WEI in Hn; lia).
  unfold PyDecimal.fix_, PyDecimal.Emin, PyDecimal.Emax.
  destruct (0 <=? e) eqn:E.
  - apply Z.leb_le in E.
    assert (P : 0 < 10 ^ e) by (apply Z.pow_pos_nonneg; lia).
    assert (Hc : 0 < c) by nia.
    assert (Hcn : c <= n) by nia.
    assert (Hd : PyDecimal.digits10 c <= 78) by (apply digits10_le; lia).
    assert (He : e < 78) by (apply pow10_lt_inv; [lia | nia]).
    replace (c =? 0) with false by (symmetry; apply Z.eqb_neq; lia).
    rewrite Z.abs_eq by lia.
    replace (999999 - 999 + 1 <? PyDecimal.digits10 c + e - 999) with false
      by (symmetry; apply Z.ltb_ge; lia).
    replace (e <? Z.max (PyDecimal.digits10 c + e - 999) (-999999 - 999 + 1)) with false
      by (symmetry; apply Z.ltb_ge; lia).
    exists c, e. split; [reflexivity|]. apply dec_value_int.
    replace (0 <=? e) with true by (symmetry; apply Z.leb_le; lia). assumption.
  - apply Z.leb_gt in E.
    assert (P : 0 < 10 ^ (- e)) by (apply Z.pow_pos_nonneg; lia).
    assert (Hc : 0 < c) by nia.
    assert (Hd : PyDecimal.digits10 c <= 78 - e).
    { apply digits10_le. split; [lia|].
      replace (78 - e) with (78 + - e) by lia.
      rewrite Z.pow_add_r by lia. subst c. nia. }
    replace (c =? 0) with false by (symmetry; apply Z.eqb_neq; lia).
    rewrite Z.abs_eq by lia.
    replace (999999 - 999 + 1 <? PyDecimal.digits10 c + e - 999) with false
      by (symmetry; apply Z.ltb_ge; lia).
    set (exp_min := Z.max (PyDecimal.digits10 c + e - 999) (-999999 - 999 + 1)).
    assert (Hem : exp_min <= -921) by (unfold exp_min; lia).
    destruct (e <? exp_min) eqn:Er.
    + apply Z.ltb_lt in Er.
      set (k := exp_min - e).
      assert (Pk : 0 < 10 ^ k) by (apply Z.pow_pos_nonneg; unfold k; lia).
      assert (Hsplit : c = n * 10 ^ (- exp_min) * 10 ^ k).
      { rewrite <- Z.mul_assoc, <- Z.pow_add_r by (unfold k; lia).
        replace (- exp_min + k) with (- e) by (unfold k; lia). assumption. }
      assert (Hq : c / 10 ^ k = n * 10 ^ (- exp_min)).
      { rewrite Hsplit at 1. apply Z.div_mul. lia. }
      assert (Hr : c mod 10 ^ k = 0).
      { rewrite Hsplit at 1. apply Z.mod_mul. lia. }
      rewrite Hr, Hq. 
      replace (10 ^ k <? 2 * 0) with false by (symmetry; apply Z.ltb_ge; lia).
      replace (10 ^ k =? 2 * 0) with false by (symmetry; apply Z.eqb_neq; lia).
      cbn [orb andb].
      replace (999999 - 999 + 1 <? exp_min) with false
        by (symmetry; apply Z.ltb_ge; lia).
      exists (Z.sgn c * (n * 10 ^ (- exp_min))), exp_min. split; [reflexivity|].
      apply dec_value_int.
      replace (0 <=? exp_min) with false by (symmetry; apply Z.leb_gt; lia).
      rewrite Z.sgn_pos by lia. lia.
    + exists c, e. split; [reflexivity|]. apply dec_value_int.
      replace (0 <=? e) with false by (symmetry; apply Z.leb_gt; lia). assumption.
Qed.

(** Dropping the zeros of an exact quotient changes its exponent, not its
    value. *)
Lemma toward_ideal_value fuel : forall c e c' e',
  Web3.toward_ideal fuel c e = (c', e') ->
  (PyDecimal.value (PyDec c' e') == PyDecimal.value (PyDec c e))%Q.
Proof.
  induction fuel as [| fuel IH]; intros c e c' e'; cbn [Web3.toward_ideal].
  - intros [= <- <-]. reflexivity.
  - destruct ((e <? 0) && (c mod 10 =? 0)) eqn:E.
    + apply andb_true_iff in E as [_ E]. apply Z.eqb_eq in E.
      intros H. rewrite (IH _ _ _ _ H). cbn [PyDecimal.value].
      rewrite Qpower_plus by discriminate.
      rewrite (Z.div_mod c 10) at 2 by lia. rewrite E, Z.add_0_r.
      rewrite inject_Z_mult. change ((10 # 1) ^ 1)%Q with (inject_Z 10).
      ring.
    + intros [= <- <-]. reflexivity.
Qed.

(** ** Comparisons *)

Lemma lt_true x y : PyDecimal.lt x y = true <-> (PyDecimal.value x < PyDecimal.value y)%Q.
Proof.
  unfold PyDecimal.lt. rewrite Qlt_alt.
  destruct (PyDecimal.value x ?= PyDecimal.value y)%Q; split; congruence.
Qed.

Lemma lt_false x y : PyDecimal.lt x y = false <-> (PyDecimal.value y <= PyDecimal.value x)%Q.
Proof.
  rewrite <- Bool.not_true_iff_false, lt_true. split.
  - apply Qnot_lt_le.
  - apply Qle_not_lt.
Qed.

(** ** The fee fields and the draft *)

Ltac unfold_monad :=
  unfold logger_error, print;
  unfold bind, lift, ret, raise, gets, emit; cbn beta iota.

(** What a successful [fee_fields] did. *)
Lemma fee_fields_inv eip w3 t s t' m s' :
  fee_fields eip w3 t s = (Return (t', m), s') ->
  s' = s /\
  value t' = value t /\ to_ t' = to_ t /\ data t' = data t /\ gas t' = gas t /\
  if eip then
    exists base prio, gas_price w3 = Return base /\ max_priority_fee w3 = Return prio /\
      PyFloat.int_mul_1_05 (base + prio) = Return m /\
      t' = set_fees_1559 prio m t
  else
    exists fetched, gas_price w3 = Return fetched /\
      PyFloat.int_mul_1_05 fetched = Return m /\ t' = set_gasPrice m t.
Proof.
  unfold fee_fields, bind, lift, ret. destruct eip.
  - destruct (gas_price w3) as [base|] eqn:E1; [|discriminate].
    destruct (max_priority_fee w3) as [prio|] eqn:E2; [|discriminate].
    destruct (PyFloat.int_mul_1_05 (base + prio)) as [fee|] eqn:E3; [|discriminate].
    intros H. injection H as <- <- <-. repeat (split; [reflexivity|]).
    exists base, prio. auto.
  - destruct (gas_price w3) as [fetched|] eqn:E1; [|discriminate].
    destruct (PyFloat.int_mul_1_05 fetched) as [fee|] eqn:E3; [|discriminate].
    intros H. injection H as <- <- <-. repeat (split; [reflexivity|]).
    exists fetched. auto.
Qed.

Ltac unfold_monad_in H :=
  unfold logger_error, print in H;
  unfold bind, lift, ret, raise, gets, emit,
    on_contract_logic_error in H; cbn beta iota in H.

Ltac split_match_in H :=
  repeat (match type of H with
          | context [match ?x with _ => _ end] =>
              lazymatch x with
              | context [match _ with _ => _ end] => fail
              | _ => idtac
              end;
              first [ is_var x; destruct x | destruct x eqn:? ]
          end; cbn beta iota in H; try discriminate H).

Lemma prepare_transaction_inv eip w3 recipient v s tx s' :
  prepare_transaction eip w3 recipient v s = (Return tx, s') ->
  exists r t1 t2 m,
    to_checksum_address w3 recipient = Return r /\
    fee_fields eip w3 t1 s = (Return (t2, m), s) /\
    maxPriorityFeePerGas tx = maxPriorityFeePerGas t2 /\
    maxFeePerGas tx = maxFeePerGas t2 /\
    gasPrice tx = gasPrice t2 /\
    match contract (self s) with
    | None =>
        exists wei, Web3.to_wei v Web3.ether = Return wei /\
                    value tx = Some wei /\ data tx = None /\ to_ tx = None
    | Some c =>
        exists d u amount,
          call_decimals w3 (c_address c) = Return d /\
          unit_names d = Some u /\
          Web3.to_wei v u = Return amount /\
          data tx = Some (Transfer r amount) /\ to_ tx = Some (c_address c) /\
          value tx = Some 0
    end.
Proof.
  intros H. unfold prepare_transaction, to_wei, build_transfer in H.
  unfold_monad_in H.
  destruct (to_checksum_address w3 recipient) as [r|] eqn:Er; [|discriminate].
  destruct (chain_id w3) as [chain|] eqn:Ec; [|discriminate].
  destruct (get_transaction_count w3 (address (self s))) as [count|] eqn:En;
    [|discriminate].
  destruct (contract (self s)) as [c|] eqn:Ek.
  - match type of H with
    | context [fee_fields eip w3 ?t s] =>
        destruct (fee_fields eip w3 t s) as [[[t2 m]|] sf] eqn:Ef;
        [|discriminate]; exists r, t, t2, m
    end.
    apply fee_fields_inv in Ef as Hf. destruct Hf as (-> & Hv & Hto & Hd & Hg & _).
    cbn [fst snd] in H. rewrite Ek in H. cbn in Hv.
    split_match_in H.
    all: try (injection H as <- <-; cbn; rewrite ?Hv;
              repeat (split; [solve [eauto] |]); eauto 10).
  - destruct (Web3.to_wei v Web3.ether) as [wei|] eqn:Ew; [|discriminate].
    match type of H with
    | context [fee_fields eip w3 ?t s] =>
        destruct (fee_fields eip w3 t s) as [[[t2 m]|] sf] eqn:Ef;
        [|discriminate]; exists r, t, t2, m
    end.
    apply fee_fields_inv in Ef as Hf. destruct Hf as (-> & Hv & Hto & Hd & Hg & _).
    cbn [fst snd] in H. rewrite Ek in H.
    split_match_in H.
    all: try (injection H as <- <-; cbn; repeat (split; [solve [eauto] |]); eauto 10).
Qed.

(** ** What every method leaves alone *)

Section Keeps.
Variable P : event -> Prop.

Lemma keeps_ret {A} (R : A -> Prop) a : R a -> keeps P R (ret a).
Proof.
  intros Ha s. cbn. repeat split; trivial.
  - exists []. rewrite app_nil_r. auto.
  - intros b [= <-]. exact Ha.
Qed.

Lemma keeps_lift {A} (o : outcome A) : keeps P anything (lift o).
Proof.
  intros s. cbn. repeat split; trivial.
  exists []. rewrite app_nil_r. auto.
Qed.

Lemma keeps_raise {A} (R : A -> Prop) e : keeps P R (raise e).
Proof.
  intros s. cbn. repeat split; trivial.
  - exists []. rewrite app_nil_r. auto.
  - discriminate.
Qed.

Lemma keeps_gets {A} (f : Client -> A) : keeps P anything (gets f).
Proof.
  intros s. cbn. repeat split; trivial.
  exists []. rewrite app_nil_r. auto.
Qed.

Lemma keeps_emit e : P e -> keeps P anything (emit e).
Proof.
  intros He s. cbn. repeat split; trivial.
  exists [e]. auto.
Qed.

Lemma keeps_weaken {A} (R : A -> Prop) m : keeps P R m -> keeps P anything m.
Proof.
  intros H s. destruct (H s) as (H1 & H2 & _). repeat split; trivial.
Qed.

Lemma keeps_bind {A B} (R1 : A -> Prop) (R : B -> Prop) m k :
  keeps P R1 m -> (forall a, R1 a -> keeps P R (k a)) ->
  keeps P R (bind m k).
Proof.
  intros Hm Hk s. unfold bind.
  destruct (Hm s) as (H1 & (l1 & H2 & H3) & H4).
  destruct (m s) as [[a|e] s1]; cbn [fst snd] in *.
  - destruct (Hk a (H4 a eq_refl) s1) as (K1 & (l2 & K2 & K3) & K4).
    split; [congruence|]. split; [|exact K4].
    exists (l1 ++ l2). rewrite K2, H2, app_assoc. split; [reflexivity|].
    apply Forall_app; auto.
  - split; [assumption|]. split; [eauto|discriminate].
Qed.

Lemma keeps_handler {A} (R : A -> Prop) (m : M A) (h : M unit) s :
  keeps P R m -> keeps P anything h ->
  forall e s1, m s = (Raise e, s1) ->
  let r := match h s1 with
           | (Return _, s2) => (@Raise A e, s2)
           | (Raise e', s2) => (Raise e', s2)
           end in
  self (snd r) = self s /\
  (exists l, out (snd r) = out s ++ l /\ Forall P l) /\
  (forall a, fst r = Return a -> R a).
Proof.
  intros Hm Hh e s1 E r.
  destruct (Hm s) as (H1 & (l1 & H2 & H3) & _). rewrite E in *.
  cbn [fst snd] in *.
  destruct (Hh s1) as (K1 & (l2 & K2 & K3) & _).
  assert (Hs : snd r = snd (h s1))
    by (unfold r; destruct (h s1) as [[?|?] ?]; reflexivity).
  assert (Hf : forall a, fst r <> Return a)
    by (unfold r; destruct (h s1) as [[?|?] ?]; discriminate).
  rewrite Hs. split; [congruence|]. split.
  - exists (l1 ++ l2). rewrite K2, H2, app_assoc. split; [reflexivity|].
    apply Forall_app; auto.
  - intros a Ha. destruct (Hf a Ha).
Qed.

Lemma keeps_on_contract_logic_error {A} (R : A -> Prop) m h :
  keeps P R m -> (forall r, keeps P anything (h r)) ->
  keeps P R (on_contract_logic_error m h).
Proof.
  intros Hm Hh s. unfold on_contract_logic_error.
  destruct (m s) as [[a|e] s1] eqn:E.
  - specialize (Hm s). rewrite E in Hm. exact Hm.
  - destruct e; try (specialize (Hm s); rewrite E in Hm; exact Hm).
    exact (keeps_handler R m (h reason) s Hm (Hh reason) _ s1 E).
Qed.

Lemma keeps_on_invalid_transaction {A} (R : A -> Prop) m h :
  keeps P R m -> (forall r, keeps P anything (h r)) ->
  keeps P R (on_invalid_transaction m h).
Proof.
  intros Hm Hh s. unfold on_invalid_transaction.
  destruct (m s) as [[a|e] s1] eqn:E.
  - specialize (Hm s). rewrite E in Hm. exact Hm.
  - destruct e; try (specialize (Hm s); rewrite E in Hm; exact Hm).
    exact (keeps_handler R m (h reason) s Hm (Hh reason) _ s1 E).
Qed.

Lemma keeps_on_time_exhausted {A} (R : A -> Prop) m h :
  keeps P R m -> keeps P anything h ->
  keeps P R (on_time_exhausted m h).
Proof.
  intros Hm Hh s. unfold on_time_exhausted.
  destruct (m s) as [[a|e] s1] eqn:E.
  - specialize (Hm s). rewrite E in Hm. exact Hm.
  - destruct e; try (specialize (Hm s); rewrite E in Hm; exact Hm).
    exact (keeps_handler R m h s Hm Hh _ s1 E).
Qed.

End Keeps.

Ltac keeps_step HP :=
  lazymatch goal with
  | |- keeps _ _ (bind _ _) =>
      first [ eapply keeps_bind;
              [solve [eauto] | intros ? ?; cbv beta in *; subst; cbn [negb]]
            | eapply keeps_bind with (R1 := anything); [ | intros ? _] ]
  | |- keeps _ _ (ret _) => apply keeps_ret; first [exact I | reflexivity]
  | |- keeps _ _ (lift _) => apply keeps_lift
  | |- keeps _ _ (raise _) => apply keeps_raise
  | |- keeps _ _ (gets _) => apply keeps_gets
  | |- keeps _ _ (emit _) => apply keeps_emit; apply HP; discriminate
  | |- keeps _ _ (on_contract_logic_error _ _) =>
      apply keeps_on_contract_logic_error; [ | intros ? ]
  | |- keeps _ _ (on_invalid_transaction _ _) =>
      apply keeps_on_invalid_transaction; [ | intros ? ]
  | |- keeps _ _ (on_time_exhausted _ _) => apply keeps_on_time_exhausted
  | |- keeps _ _ (match ?x with _ => _ end) => destruct x
  | |- keeps _ _ (let _ := _ in _) => cbv zeta
  | |- keeps _ _ _ => solve [eauto]
  end.

Ltac keeps_run HP := unfold logger_error, print; repeat keeps_step HP.

Section Methods_keep.
Variable P : event -> Prop.
Hypothesis HP : forall e, e <> fallback_line -> P e.
Variable eip : bool.
Variable url : string.
Variable w3 : rpc.

Lemma to_wei_keeps v d : keeps P anything (to_wei v d).
Proof. unfold to_wei. keeps_run HP. Qed.

Lemma from_wei_keeps n d : keeps P anything (from_wei n d).
Proof. unfold from_wei. keeps_run HP. Qed.

Lemma ensure_keeps v g :
  keeps P (fun b => b = true) (_ensure_sufficient_funds w3 v g).
Proof.
  pose proof from_wei_keeps.
  unfold _ensure_sufficient_funds. keeps_run HP.
Qed.

Lemma fee_fields_keeps t : keeps P anything (fee_fields eip w3 t).
Proof. unfold fee_fields. keeps_run HP. Qed.

Lemma build_transfer_keeps c r a t : keeps P anything (build_transfer w3 c r a t).
Proof. unfold build_transfer. keeps_run HP. Qed.

Lemma prepare_transaction_keeps r v :
  keeps P anything (prepare_transaction eip w3 r v).
Proof.
  pose proof to_wei_keeps. pose proof ensure_keeps. pose proof fee_fields_keeps.
  pose proof build_transfer_keeps.
  unfold prepare_transaction. keeps_run HP.
Qed.

Lemma sign_and_send_transaction_keeps t :
  keeps P anything (sign_and_send_transaction url w3 t).
Proof. unfold sign_and_send_transaction. keeps_run HP. Qed.

Lemma wait_for_transaction_keeps h :
  keeps P anything (wait_for_transaction w3 h).
Proof. unfold wait_for_transaction. keeps_run HP. Qed.

Lemma load_abi_keeps p : keeps P anything (_load_abi w3 p).
Proof. unfold _load_abi. keeps_run HP. Qed.

End Methods_keep.

(** * The claims *)

Ltac qdecide := vm_compute; first [reflexivity | discriminate].

(** ** C1: fee computation *)

(** C1 (as amended).  In the fee computation of [prepare_transaction], with
    fetched gas price [base]: under the legacy mode, where no priority fee
    is asked for, [gasPrice] is [int(base * 1.05)], the double product
    truncated; under EIP-1559, with fetched priority fee [prio],
    [maxPriorityFeePerGas] is [prio] and [maxFeePerGas] is
    [int((base + prio) * 1.05)].  That fee is also the multiplier of the gas
    cost.  This holds for every fetched value: when the product cannot be
    formed the fee computation raises what the arithmetic raises.  For a
    fetched sum [x] with 0 <= x < 2^48 the truncated product is
    [floor(21 * x / 20)].  A draft returned by [prepare_transaction] carries
    these fields. *)
Theorem fee_fields_truncate_markup (w3 : rpc) (base : Z) :
  gas_price w3 = Return base ->
  (forall t s,
     fee_fields false w3 t s
     = match PyFloat.int_mul_1_05 base with
       | Return fee => (Return (set_gasPrice fee t, fee), s)
       | Raise e => (Raise e, s)
       end) /\
  (forall recipient v s tx s',
     prepare_transaction false w3 recipient v s = (Return tx, s') ->
     exists fee,
       PyFloat.int_mul_1_05 base = Return fee /\ gasPrice tx = Some fee /\
       (0 <= base < 2 ^ 48 -> fee = 21 * base / 20)) /\
  (forall prio,
     max_priority_fee w3 = Return prio ->
     (forall t s,
        fee_fields true w3 t s
        = match PyFloat.int_mul_1_05 (base + prio) with
          | Return fee => (Return (set_fees_1559 prio fee t, fee), s)
          | Raise e => (Raise e, s)
          end) /\
     (forall recipient v s tx s',
        prepare_transaction true w3 recipient v s = (Return tx, s') ->
        exists fee,
          PyFloat.int_mul_1_05 (base + prio) = Return fee /\
          maxPriorityFeePerGas tx = Some prio /\ maxFeePerGas tx = Some fee /\
          (0 <= base + prio < 2 ^ 48 -> fee = 21 * (base + prio) / 20))) /\
  (forall x, 0 <= x < 2 ^ 48 -> PyFloat.int_mul_1_05 x = Return (21 * x / 20)).
Proof.
  intros Eb.
  assert (Hfloor : forall x fee,
            PyFloat.int_mul_1_05 x = Return fee ->
            0 <= x < 2 ^ 48 -> fee = 21 * x / 20).
  { intros x fee Hx Hr. rewrite (int_mul_1_05_floor x Hr) in Hx.
    now injection Hx. }
  split; [|split; [|split]].
  - intros t s. unfold fee_fields, bind, lift, ret. rewrite Eb.
    destruct (PyFloat.int_mul_1_05 base); reflexivity.
  - intros recipient v s tx s' H. apply prepare_transaction_inv in H.
    destruct H as (r & t1 & t2 & m & _ & Hf & _ & _ & -> & _).
    apply fee_fields_inv in Hf as (_ & _ & _ & _ & _ & Hf).
    destruct Hf as (fetched & Eb' & Hm & ->).
    rewrite Eb in Eb'. injection Eb' as <-.
    exists m. split; [exact Hm|]. split; [reflexivity|]. now apply Hfloor.
  - intros prio Ep. split.
    + intros t s. unfold fee_fields, bind, lift, ret. rewrite Eb, Ep.
      destruct (PyFloat.int_mul_1_05 (base + prio)); reflexivity.
    + intros recipient v s tx s' H. apply prepare_transaction_inv in H.
      destruct H as (r & t1 & t2 & m & _ & Hf & -> & -> & _).
      apply fee_fields_inv in Hf as (_ & _ & _ & _ & _ & Hf).
      destruct Hf as (base' & prio' & Eb' & Ep' & Hm & ->).
      rewrite Eb in Eb'. injection Eb' as <-.
      rewrite Ep in Ep'. injection Ep' as <-.
      exists m. split; [exact Hm|]. do 2 (split; [reflexivity|]).
      now apply Hfloor.
  - intros x Hx. now apply int_mul_1_05_floor.
Qed.

(** The spec's own figures: a base fee of 100 with a priority fee of 10
    gives 115, and a legacy gas price of 200 gives 210, also on an endpoint
    that has no priority fee to give. *)
Lemma fee_fields_truncate_markup_witness :
  (forall t s,
     fee_fields true (sample_rpc 100 10 0 0 18 None) t s
     = (Return (set_fees_1559 10 115 t, 115), s)) /\
  (forall t s,
     fee_fields false (without_priority_fee (sample_rpc 200 0 0 0 18 None)) t s
     = (Return (set_gasPrice 210 t, 210), s)).
Proof.
  split.
  - exact (proj1 (proj1 (proj2 (proj2 (fee_fields_truncate_markup
                                         (sample_rpc 100 10 0 0 18 None)
                                         100 eq_refl)))
                   10 eq_refl)).
  - exact (proj1 (fee_fields_truncate_markup
                    (without_priority_fee (sample_rpc 200 0 0 0 18 None))
                    200 eq_refl)).
Defined.

(** C1 as stated fails: for a base fee of 100 and a priority fee of 10 the
    draft's [maxFeePerGas] is 115, while [ceil(110 * 1.05)] is 116. *)
Lemma fee_markup_not_ceiling :
  match prepare_transaction true
          (sample_rpc 100 10 (wei_of_ether 5) 0 18 None)
          "0xRecipient" (PyDec 15 (-1)) (fresh unbound_client) with
  | (Return tx, _) =>
      maxPriorityFeePerGas tx = Some 10 /\
      maxFeePerGas tx = Some 115 /\
      spec_ceil_1_05 (100 + 10) = 116
  | (Raise _, _) => False
  end.
Proof. vm_compute. repeat split. Qed.

(** ** C2: funds verification of a native transfer *)

(** C2 (as amended).  For an unbound client whose native balance converts
    to [bal]: if [bal] is below the gas cost the check fails with the gas
    shortfall, as it does for a token transfer.  Otherwise, when the decimal
    sum [v + gas_cost] is exact in the context (it fits 28 significant
    digits), the check succeeds whenever the amount is non-negative and
    [bal >= v + gas_cost], and fails with the combined shortfall whenever
    [bal < v + gas_cost]. *)
Theorem native_funds_verification (w3 : rpc) (s : state) (v gas_cost : num)
    (bw : Z) (bal : num) :
  contract (self s) = None ->
  get_balance w3 (address (self s)) = Return bw ->
  Web3.from_wei bw Web3.ether = Return bal ->
  let s1 := say (native_balance_line bal) s in
  ((PyDecimal.value bal < PyDecimal.value gas_cost)%Q ->
   _ensure_sufficient_funds w3 v gas_cost s
   = (Raise bare_raise, say (gas_shortfall gas_cost) s1)) /\
  (forall total,
     PyDecimal.add v gas_cost = Return total ->
     (PyDecimal.value total
      == PyDecimal.value v + PyDecimal.value gas_cost)%Q ->
     ((0 <= PyDecimal.value v)%Q ->
      (PyDecimal.value v + PyDecimal.value gas_cost
       <= PyDecimal.value bal)%Q ->
      _ensure_sufficient_funds w3 v gas_cost s = (Return true, s1)) /\
     ((PyDecimal.value gas_cost <= PyDecimal.value bal)%Q ->
      (PyDecimal.value bal
       < PyDecimal.value v + PyDecimal.value gas_cost)%Q ->
      _ensure_sufficient_funds w3 v gas_cost s
      = (Raise bare_raise, say (combined_shortfall v) s1))).
Proof.
  intros Hc Hb Hf s1. unfold _ensure_sufficient_funds. unfold_monad.
  rewrite Hb, Hf. split.
  - intros Hlt. apply lt_true in Hlt. rewrite Hlt. reflexivity.
  - intros total Ha Hex. split.
    + intros Hv Hle.
      assert (H1 : PyDecimal.lt bal gas_cost = false)
        by (apply lt_false; lra).
      assert (H2 : PyDecimal.lt bal total = false)
        by (apply lt_false; rewrite Hex; lra).
      rewrite H1. cbn [self say]. rewrite Hc, Ha, H2. reflexivity.
    + intros Hge Hlt.
      assert (H1 : PyDecimal.lt bal gas_cost = false)
        by (apply lt_false; lra).
      assert (H2 : PyDecimal.lt bal total = true)
        by (apply lt_true; rewrite Hex; lra).
      rewrite H1. cbn [self say]. rewrite Hc, Ha, H2. reflexivity.
Qed.

(** The spec's figures, in ether: with an amount of 50 and a gas cost of 10,
    a balance of 100 passes and a balance of 55 fails with the combined
    shortfall. *)
Lemma native_funds_verification_witness :
  _ensure_sufficient_funds (sample_rpc 100 10 (wei_of_ether 100) 0 18 None)
    (PyDec 50 0) (in_ether 10) (fresh unbound_client)
  = (Return true,
     say (native_balance_line (in_ether 100)) (fresh unbound_client)) /\
  _ensure_sufficient_funds (sample_rpc 100 10 (wei_of_ether 55) 0 18 None)
    (PyDec 50 0) (in_ether 10) (fresh unbound_client)
  = (Raise bare_raise,
     say (combined_shortfall (PyDec 50 0))
       (say (native_balance_line (in_ether 55)) (fresh unbound_client))).
Proof.
  split.
  - refine (proj1 (proj2 (native_funds_verification
                     (sample_rpc 100 10 (wei_of_ether 100) 0 18 None)
                     (fresh unbound_client) (PyDec 50 0) (in_ether 10)
                     (wei_of_ether 100) (in_ether 100)
                     eq_refl eq_refl eq_refl)
                   (in_ether 60) eq_refl _) _ _);
      qdecide.
  - refine (proj2 (proj2 (native_funds_verification
                     (sample_rpc 100 10 (wei_of_ether 55) 0 18 None)
                     (fresh unbound_client) (PyDec 50 0) (in_ether 10)
                     (wei_of_ether 55) (in_ether 55)
                     eq_refl eq_refl eq_refl)
                   (in_ether 60) eq_refl _) _ _);
      qdecide.
Defined.

(** C2 as stated fails twice.  With a balance of 5, an amount of 50 and a
    gas cost of 10 the balance is below amount plus gas, but the failure is
    the gas shortfall, not the combined one.  With a balance of 1, a gas
    cost of 1 and an amount of 1E-30 the balance is below amount plus gas,
    but the sum rounds to 1 at 28 digits and the check succeeds. *)
Lemma native_funds_not_as_stated :
  ((PyDecimal.value (in_ether 5)
    < PyDecimal.value (PyDec 50 0) + PyDecimal.value (in_ether 10))%Q /\
   _ensure_sufficient_funds (sample_rpc 100 10 (wei_of_ether 5) 0 18 None)
     (PyDec 50 0) (in_ether 10) (fresh unbound_client)
   = (Raise bare_raise,
      say (gas_shortfall (in_ether 10))
        (say (native_balance_line (in_ether 5)) (fresh unbound_client))) /\
   gas_shortfall (in_ether 10) <> combined_shortfall (PyDec 50 0)) /\
  ((PyDecimal.value (in_ether 1)
    < PyDecimal.value (PyDec 1 (-30)) + PyDecimal.value (in_ether 1))%Q /\
   _ensure_sufficient_funds (sample_rpc 100 10 (wei_of_ether 1) 0 18 None)
     (PyDec 1 (-30)) (in_ether 1) (fresh unbound_client)
   = (Return true,
      say (native_balance_line (in_ether 1)) (fresh unbound_client))).
Proof. repeat split; qdecide. Qed.

(** ** C3: funds verification of a token transfer *)

(** C3.  For a bound client whose native balance converts to [bal]: if
    [bal] is below the gas cost the check fails with the gas shortfall,
    whatever the token balance (the token is not even asked).  Otherwise,
    with the token balance converted at the token's decimals to [tb], the
    check fails with the token shortfall whenever [tb] is below the amount,
    and succeeds whenever it is not: the native balance is not compared with
    amount plus gas. *)
Theorem token_funds_verification (w3 : rpc) (s : state) (c : AsyncContract)
    (v gas_cost : num) (bw : Z) (bal : num) :
  contract (self s) = Some c ->
  get_balance w3 (address (self s)) = Return bw ->
  Web3.from_wei bw Web3.ether = Return bal ->
  let s1 := say (native_balance_line bal) s in
  ((PyDecimal.value bal < PyDecimal.value gas_cost)%Q ->
   _ensure_sufficient_funds w3 v gas_cost s
   = (Raise bare_raise, say (gas_shortfall gas_cost) s1)) /\
  ((PyDecimal.value gas_cost <= PyDecimal.value bal)%Q ->
   forall tw d u tb,
     call_balanceOf w3 (c_address c) (address (self s)) = Return tw ->
     call_decimals w3 (c_address c) = Return d ->
     unit_names d = Some u ->
     Web3.from_wei tw u = Return tb ->
     let s2 := say (contract_balance_line tb) s1 in
     ((PyDecimal.value tb < PyDecimal.value v)%Q ->
      _ensure_sufficient_funds w3 v gas_cost s
      = (Raise bare_raise, say (token_shortfall tb) s2)) /\
     ((PyDecimal.value v <= PyDecimal.value tb)%Q ->
      _ensure_sufficient_funds w3 v gas_cost s = (Return true, s2))).
Proof.
  intros Hc Hb Hf s1. unfold _ensure_sufficient_funds. unfold_monad.
  rewrite Hb, Hf. split.
  - intros Hlt. apply lt_true in Hlt. rewrite Hlt. reflexivity.
  - intros Hge tw d u tb Ht Hd Hu Hfw; try intros s2; cbv zeta.
    apply lt_false in Hge. rewrite Hge. cbn [self say]. rewrite Hc, Ht, Hd.
    unfold from_wei. rewrite Hu. unfold_monad. rewrite Hfw.
    split; intros Hcmp.
    + apply lt_true in Hcmp. rewrite Hcmp. reflexivity.
    + apply lt_false in Hcmp. rewrite Hcmp. reflexivity.
Qed.

(** The spec's figures: a native balance of 5 against a gas cost of 10 is
    a gas shortfall; a native balance of 20 with 30 tokens against an amount
    of 40 is a token shortfall. *)
Lemma token_funds_verification_witness :
  _ensure_sufficient_funds
    (sample_rpc 100 10 (wei_of_ether 5) (wei_of_ether 30) 18 None)
    (PyDec 40 0) (in_ether 10) (fresh bound_client)
  = (Raise bare_raise,
     say (gas_shortfall (in_ether 10))
       (say (native_balance_line (in_ether 5)) (fresh bound_client))) /\
  _ensure_sufficient_funds
    (sample_rpc 100 10 (wei_of_ether 20) (wei_of_ether 30) 18 None)
    (PyDec 40 0) (in_ether 10) (fresh bound_client)
  = (Raise bare_raise,
     say (token_shortfall (in_ether 30))
       (say (contract_balance_line (in_ether 30))
          (say (native_balance_line (in_ether 20)) (fresh bound_client)))).
Proof.
  split.
  - refine (proj1 (token_funds_verification
                     (sample_rpc 100 10 (wei_of_ether 5) (wei_of_ether 30)
                        18 None)
                     (fresh bound_client) sample_token (PyDec 40 0)
                     (in_ether 10) (wei_of_ether 5) (in_ether 5)
                     eq_refl eq_refl eq_refl) _); qdecide.
  - refine (proj1 (proj2 (token_funds_verification
                     (sample_rpc 100 10 (wei_of_ether 20) (wei_of_ether 30)
                        18 None)
                     (fresh bound_client) sample_token (PyDec 40 0)
                     (in_ether 10) (wei_of_ether 20) (in_ether 20)
                     eq_refl eq_refl eq_refl) _
                   (wei_of_ether 30) 18 Web3.ether (in_ether 30)
                   eq_refl eq_refl eq_refl eq_refl) _); qdecide.
Defined.

(** ** C4: the round trip through base units *)

Lemma value_as_dec x :
  (PyDecimal.value x
   == PyDecimal.value (PyDec (fst (PyDecimal.as_dec x))
                         (snd (PyDecimal.as_dec x))))%Q.
Proof.
  destruct x as [n | c e]; cbn; [|reflexivity].
  change ((10 # 1) ^ 0)%Q with 1%Q. ring.
Qed.

Lemma unit_value_pos u : 0 < Web3.unit_value u.
Proof. destruct u; reflexivity. Qed.

Lemma unit_names_decimals d u :
  unit_names d = Some u -> Web3.unit_decimals u = d.
Proof.
  intros H. destruct u.
  all: destruct d as [| p | p]; try discriminate H.
  all: do 6 (try (destruct p as [p | p |]; try discriminate H)).
  all: reflexivity.
Qed.

(** The library's conversions on an amount that is [n] base units. *)
Lemma web3_round_trip x u n :
  0 <= n <= Web3.MAX_WEI ->
  (PyDecimal.value x == inject_Z n / inject_Z (Web3.unit_value u))%Q ->
  Web3.to_wei x u = Return n /\
  exists y, Web3.from_wei n u = Return y /\ PyDecimal.eq y x = true.
Proof.
  intros Hn Hx.
  pose proof (unit_value_pos u) as Hu.
  assert (NZ : ~ (inject_Z (Web3.unit_value u) == 0)%Q).
  { change 0%Q with (inject_Z 0). rewrite inject_Z_injective. lia. }
  assert (Hxu : (PyDecimal.value x * inject_Z (Web3.unit_value u)
                 == inject_Z n)%Q).
  { rewrite Hx. field. exact NZ. }
  assert (Hback : forall y, (PyDecimal.value y == PyDecimal.value x)%Q ->
                            PyDecimal.eq y x = true).
  { intros y Hy. unfold PyDecimal.eq. apply Qeq_alt in Hy. now rewrite Hy. }
  rewrite value_as_dec in Hxu.
  unfold Web3.to_wei. destruct (PyDecimal.as_dec x) as [c e] eqn:Ex.
  cbn [fst snd] in Hxu.
  destruct (c =? 0) eqn:Ec.
  - apply Z.eqb_eq in Ec. subst c.
    assert (n = 0).
    { apply inject_Z_injective. rewrite <- Hxu. cbn [PyDecimal.value].
      change (inject_Z 0) with 0%Q. ring. }
    subst n. split; [reflexivity|].
    exists (PyInt 0). split; [reflexivity|]. apply Hback.
    rewrite Hx. cbn [PyDecimal.value]. change (inject_Z 0) with 0%Q.
    field. exact NZ.
  - apply Z.eqb_neq in Ec.
    assert (Hv : (PyDecimal.value (PyDec (c * Web3.unit_value u) e)
                  == inject_Z n)%Q).
    { rewrite <- Hxu. cbn [PyDecimal.value]. rewrite inject_Z_mult. ring. }
    assert (Hn0 : n <> 0).
    { intros ->. apply dec_value_int in Hv.
      destruct (0 <=? e) eqn:E.
      - apply Z.leb_le in E.
        assert (0 < 10 ^ e) by (apply Z.pow_pos_nonneg; lia).
        apply Z.mul_eq_0 in Hv as [Hv | Hv]; [|lia].
        apply Z.mul_eq_0 in Hv as [Hv | Hv]; lia.
      - rewrite Z.mul_0_l in Hv.
        apply Z.mul_eq_0 in Hv as [Hv | Hv]; lia. }
    destruct (fix_999_wei (c * Web3.unit_value u) e n ltac:(lia) Hv)
      as (c' & e' & Hfix & Hv').
    rewrite Hfix.
    assert (L1 : PyDecimal.lt (PyDec c' e') (PyInt Web3.MIN_WEI) = false).
    { apply lt_false. rewrite Hv'. cbn [PyDecimal.value].
      rewrite <- Zle_Qle. unfold Web3.MIN_WEI. lia. }
    assert (L2 : PyDecimal.lt (PyInt Web3.MAX_WEI) (PyDec c' e') = false).
    { apply lt_false. rewrite Hv'. cbn [PyDecimal.value].
      rewrite <- Zle_Qle. lia. }
    rewrite L1, L2. cbn [orb].
    rewrite (to_integral_int c' e' n Hv'). split; [reflexivity|].
    unfold Web3.from_wei.
    replace (n =? 0) with false by (symmetry; apply Z.eqb_neq; exact Hn0).
    replace (n <? Web3.MIN_WEI) with false
      by (symmetry; apply Z.ltb_ge; unfold Web3.MIN_WEI; lia).
    replace (Web3.MAX_WEI <? n) with false
      by (symmetry; apply Z.ltb_ge; lia).
    cbn [orb].
    destruct (Web3.toward_ideal (Z.to_nat (Web3.unit_decimals u)) n
                (- Web3.unit_decimals u)) as [c2 e2] eqn:Eti.
    eexists. split; [reflexivity|]. apply Hback.
    rewrite (toward_ideal_value _ _ _ _ _ Eti).
    rewrite Hx. cbn [PyDecimal.value]. unfold Web3.unit_value.
    set (d := Web3.unit_decimals u).
    assert (0 <= d) by (unfold d; destruct u; cbn; lia).
    rewrite Qpower_opp, <- Qpow10_nonneg by assumption.
    reflexivity.
Qed.

(** C4 (as amended).  For [d] in {6, 9, 18} and an amount [x] that is
    exactly [n] base units at precision [d], with [n] a wei amount
    (0 <= n <= 2^256 - 1): [to_wei x d] returns [n] and [from_wei] of that
    returns a number equal to [x]. *)
Theorem base_units_round_trip (d : Z) (x : num) (n : Z) (s : state) :
  d = 6 \/ d = 9 \/ d = 18 ->
  0 <= n <= Web3.MAX_WEI ->
  (PyDecimal.value x == inject_Z n / inject_Z (10 ^ d))%Q ->
  to_wei x d s = (Return n, s) /\
  exists y,
    (wei <- to_wei x d ;; from_wei wei d) s = (Return y, s) /\
    PyDecimal.eq y x = true.
Proof.
  intros Hd Hn Hx.
  assert (exists u, unit_names d = Some u /\ Web3.unit_value u = 10 ^ d)
    as (u & Hu & Hval).
  { destruct Hd as [-> | [-> | ->]];
      [exists Web3.mwei | exists Web3.gwei | exists Web3.ether];
      split; reflexivity. }
  rewrite <- Hval in Hx.
  destruct (web3_round_trip x u n Hn Hx) as (Hto & y & Hfrom & Heq).
  assert (T : to_wei x d s = (Return n, s)).
  { unfold to_wei. rewrite Hu. unfold lift. now rewrite Hto. }
  split; [exact T|].
  exists y. split; [|exact Heq].
  unfold bind. rewrite T. unfold from_wei. rewrite Hu. unfold lift.
  now rewrite Hfrom.
Qed.

(** 1.5 at 18 decimals is 1500000000000000000 base units, and back. *)
Lemma base_units_round_trip_witness :
  to_wei (PyDec 15 (-1)) 18 (fresh unbound_client)
  = (Return 1500000000000000000, fresh unbound_client) /\
  exists y,
    (wei <- to_wei (PyDec 15 (-1)) 18 ;; from_wei wei 18)
      (fresh unbound_client) = (Return y, fresh unbound_client) /\
    PyDecimal.eq y (PyDec 15 (-1)) = true.
Proof.
  apply (base_units_round_trip 18 (PyDec 15 (-1)) 1500000000000000000
           (fresh unbound_client)).
  - right; right; reflexivity.
  - split; [discriminate | vm_compute; discriminate].
  - vm_compute. reflexivity.
Defined.

(** C4 as stated fails twice.  10^60 is a non-negative integer, but at 18
    decimals it is 10^78 base units, more than 2^256 - 1, and the
    conversion to base units raises: nothing comes back.  And the decimal
    0.0000001 is a tenth of a base unit at 6 decimals: it converts to 0 base
    units, and what comes back is 0. *)
Lemma round_trip_beyond_wei_range :
  ((0 <= PyDecimal.value (PyInt (10 ^ 60)))%Q /\
   (PyDecimal.value (PyInt (10 ^ 60))
    == inject_Z (10 ^ 78) / inject_Z (10 ^ 18))%Q /\
   Web3.MAX_WEI < 10 ^ 78 /\
   (wei <- to_wei (PyInt (10 ^ 60)) 18 ;; from_wei wei 18)
     (fresh unbound_client)
   = (Raise (ValueError
        [Lit "Resulting wei value must be between 1 and 2**256 - 1"]),
      fresh unbound_client)) /\
  ((0 <= PyDecimal.value (PyDec 1 (-7)))%Q /\
   (wei <- to_wei (PyDec 1 (-7)) 6 ;; from_wei wei 6) (fresh unbound_client)
   = (Return (PyInt 0), fresh unbound_client) /\
   PyDecimal.eq (PyInt 0) (PyDec 1 (-7)) = false).
Proof. repeat split; vm_compute; first [reflexivity | discriminate]. Qed.

(** ** C5: unsupported precision *)

Lemma unit_names_none d : d <> 6 -> d <> 9 -> d <> 18 -> unit_names d = None.
Proof.
  intros H6 H9 H18. destruct d as [| p | p]; try reflexivity.
  do 6 (try (destruct p as [p | p |]; try reflexivity)).
  all: first [ destruct (H6 eq_refl) | destruct (H9 eq_refl)
             | destruct (H18 eq_refl) ].
Qed.

(** C5.  For [decimals] outside {6, 9, 18} both converters log the missing
    unit and raise the [ValueError] that names [decimals], whatever the
    amount. *)
Theorem unsupported_precision (d : Z) (v : num) (n : Z) (s : state) :
  d <> 6 -> d <> 9 -> d <> 18 ->
  to_wei v d s
  = (Raise (ValueError (cant_find_unit_name d)),
     say (LoggerError (cant_find_unit_name d)) s) /\
  from_wei n d s
  = (Raise (ValueError (cant_find_unit_name d)),
     say (LoggerError (cant_find_unit_name d)) s).
Proof.
  intros H6 H9 H18. unfold to_wei, from_wei.
  rewrite (unit_names_none d H6 H9 H18). split; reflexivity.
Qed.

(** A token with 8 decimals. *)
Lemma unsupported_precision_witness :
  to_wei (PyDec 15 (-1)) 8 (fresh unbound_client)
  = (Raise (ValueError (cant_find_unit_name 8)),
     say (LoggerError (cant_find_unit_name 8)) (fresh unbound_client)) /\
  from_wei 150000000 8 (fresh unbound_client)
  = (Raise (ValueError (cant_find_unit_name 8)),
     say (LoggerError (cant_find_unit_name 8)) (fresh unbound_client)).
Proof.
  apply (unsupported_precision 8 (PyDec 15 (-1)) 150000000
           (fresh unbound_client)); discriminate.
Defined.

(** ** C6: what a failure carries *)

(** C6 fails on the code: the shortfalls of the funds check are raised by a
    bare [raise] with no exception being handled, so the caller receives
    the same [RuntimeError] without any amount, balance or reason, whichever
    check failed and whatever the figures.  Here: the gas shortfall, the
    combined shortfall, the token shortfall, and a whole
    [prepare_transaction] of 1.5 ether from a balance of 1 ether. *)
Theorem shortfall_raised_without_context :
  fst (_ensure_sufficient_funds
         (sample_rpc 100 10 (wei_of_ether 5) 0 18 None)
         (PyDec 50 0) (in_ether 10) (fresh unbound_client))
  = Raise (RuntimeError [Lit "No active exception to reraise"]) /\
  fst (_ensure_sufficient_funds
         (sample_rpc 100 10 (wei_of_ether 55) 0 18 None)
         (PyDec 50 0) (in_ether 10) (fresh unbound_client))
  = Raise (RuntimeError [Lit "No active exception to reraise"]) /\
  fst (_ensure_sufficient_funds
         (sample_rpc 100 10 (wei_of_ether 20) (wei_of_ether 30) 18 None)
         (PyDec 40 0) (in_ether 10) (fresh bound_client))
  = Raise (RuntimeError [Lit "No active exception to reraise"]) /\
  fst (prepare_transaction true
         (sample_rpc 100 10 (wei_of_ether 1) 0 18 None)
         "0xRecipient" (PyDec 15 (-1)) (fresh unbound_client))
  = Raise (RuntimeError [Lit "No active exception to reraise"]).
Proof. repeat split; vm_compute; reflexivity. Qed.

(** ** C7: where the amount goes in the draft *)

(** C7.  A draft returned for an unbound client has as [value] the amount
    converted with the unit [ether], 18 decimals, and carries no call.  A
    draft returned for a bound client carries instead, addressed to the
    contract, the call [transfer(recipient, amount)] with the amount
    converted at the decimals the token reports; its [value] is 0, so the
    amount is not sent as native coin as well. *)
Theorem draft_amount_field (eip : bool) (w3 : rpc) (recipient : string)
    (v : num) (s : state) (tx : TxParams) (s' : state) :
  prepare_transaction eip w3 recipient v s = (Return tx, s') ->
  match contract (self s) with
  | None =>
      exists wei,
        Web3.to_wei v Web3.ether = Return wei /\
        Web3.unit_decimals Web3.ether = 18 /\
        value tx = Some wei /\ data tx = None /\ to_ tx = None
  | Some c =>
      exists r d u amount,
        to_checksum_address w3 recipient = Return r /\
        call_decimals w3 (c_address c) = Return d /\
        unit_names d = Some u /\ Web3.unit_decimals u = d /\
        Web3.to_wei v u = Return amount /\
        data tx = Some (Transfer r amount) /\ to_ tx = Some (c_address c) /\
        value tx = Some 0
  end.
Proof.
  intros H. apply prepare_transaction_inv in H.
  destruct H as (r & t1 & t2 & m & Hr & _ & _ & _ & _ & H).
  destruct (contract (self s)) as [c|].
  - destruct H as (d & u & amount & Hd & Hu & Hw & Hdata & Hto & Hval).
    exists r, d, u, amount. repeat split; trivial.
    now apply unit_names_decimals.
  - destruct H as (wei & Hw & Hv & Hdata & Hto).
    exists wei. repeat split; trivial.
Qed.

(** 1.5 ether sent by an unbound client, and 1.5 tokens of 6 decimals sent
    by a bound one. *)
Lemma draft_amount_field_witness :
  (exists wei,
     Web3.to_wei (PyDec 15 (-1)) Web3.ether = Return wei /\
     Web3.unit_decimals Web3.ether = 18 /\
     value sample_native_draft = Some wei /\
     data sample_native_draft = None /\ to_ sample_native_draft = None) /\
  (exists r d u amount,
     to_checksum_address (sample_rpc 100 10 (wei_of_ether 5) 30000000 6 None)
       "0xRecipient" = Return r /\
     call_decimals (sample_rpc 100 10 (wei_of_ether 5) 30000000 6 None)
       (c_address sample_token) = Return d /\
     unit_names d = Some u /\ Web3.unit_decimals u = d /\
     Web3.to_wei (PyDec 15 (-1)) u = Return amount /\
     data sample_token_draft = Some (Transfer r amount) /\
     to_ sample_token_draft = Some (c_address sample_token) /\
     value sample_token_draft = Some 0).
Proof.
  split.
  - exact (draft_amount_field true
             (sample_rpc 100 10 (wei_of_ether 5) 0 18 None)
             "0xRecipient" (PyDec 15 (-1)) (fresh unbound_client)
             sample_native_draft
             (say (native_balance_line (in_ether 5)) (fresh unbound_client))
             eq_refl).
  - exact (draft_amount_field false
             (sample_rpc 100 10 (wei_of_ether 5) 30000000 6 None)
             "0xRecipient" (PyDec 15 (-1)) (fresh bound_client)
             sample_token_draft
             (say (contract_balance_line (PyDec 30 0))
                (say (native_balance_line (in_ether 5)) (fresh bound_client)))
             eq_refl).
Defined.

(** ** C9: binding a token twice *)

Lemma set_contract_bound w3 a s :
  contract (self s) <> None ->
  contract (self (snd (set_contract w3 a s))) <> None.
Proof.
  intros Hb. unfold set_contract, _load_abi, eth_contract, modify.
  unfold_monad.
  destruct (read_abi w3 "ERC20_ABI.json") as [abi|]; [|exact Hb].
  destruct (to_checksum_address w3 a); [|exact Hb].
  cbn. destruct (validate_abi w3 abi); cbn; [discriminate | exact Hb].
Qed.

Lemma call_bound eip url w3 m s :
  contract (self s) <> None ->
  contract (self (call eip url w3 m s)) <> None.
Proof.
  intros Hb.
  assert (HP : forall e, e <> fallback_line -> (fun _ : event => True) e)
    by (intros; exact I).
  destruct m; cbn [call].
  - now apply set_contract_bound.
  - now rewrite (proj1 (to_wei_keeps _ HP v decimals s)).
  - now rewrite (proj1 (from_wei_keeps _ HP v decimals s)).
  - now rewrite (proj1 (prepare_transaction_keeps _ HP eip w3 recipient v s)).
  - now rewrite (proj1 (sign_and_send_transaction_keeps _ HP url w3
                          transaction s)).
  - now rewrite (proj1 (wait_for_transaction_keeps _ HP w3 tx_hash s)).
  - now rewrite (proj1 (ensure_keeps _ HP w3 v gas_cost s)).
  - now rewrite (proj1 (load_abi_keeps (fun _ => True) w3 path s)).
Qed.

(** C9.  When the ABI file loads, the library accepts it as an ABI and both
    addresses normalise, binding a client to one token and then to another
    succeeds, without output, and leaves the second binding in place: its
    checksummed address and the contract handle made of it.  And no
    sequence of calls of the methods, whether they return or raise, takes a
    bound client back to unbound. *)
Theorem rebinding_overwrites (w3 : rpc) (s : state) (a1 a2 : string)
    (abi k1 k2 : string) :
  read_abi w3 "ERC20_ABI.json" = Return abi ->
  validate_abi w3 abi = Return tt ->
  to_checksum_address w3 a1 = Return k1 ->
  to_checksum_address w3 a2 = Return k2 ->
  (exists s2,
     (set_contract w3 a1 ;; set_contract w3 a2) s = (Return tt, s2) /\
     contract (self s2) = Some {| c_address := k2; c_abi := abi |} /\
     contract_address (self s2) = Some k2 /\
     out s2 = out s) /\
  (forall eip url ms s0,
     contract (self s0) <> None ->
     contract (self (calls eip url w3 ms s0)) <> None).
Proof.
  intros Habi Hok H1 H2. split.
  - unfold set_contract, _load_abi, eth_contract, modify. unfold_monad.
    rewrite Habi, H1. cbn. rewrite Hok. cbn. rewrite H2. cbn.
    eexists. split; [reflexivity|]. cbn. repeat split.
  - intros eip url ms. unfold calls.
    induction ms as [| m ms IH]; intros s0 Hb; cbn [fold_left].
    + exact Hb.
    + apply IH. now apply call_bound.
Qed.

(** Two tokens in a row on a fresh client. *)
Lemma rebinding_overwrites_witness :
  (exists s2,
     (set_contract (sample_rpc 100 10 0 0 18 None) "0xTokenA" ;;
      set_contract (sample_rpc 100 10 0 0 18 None) "0xTokenB")
       (fresh unbound_client) = (Return tt, s2) /\
     contract (self s2) = Some {| c_address := "0xTokenB"; c_abi := "[]" |} /\
     contract_address (self s2) = Some "0xTokenB"%string /\
     out s2 = out (fresh unbound_client)) /\
  (forall eip url ms s0,
     contract (self s0) <> None ->
     contract (self (calls eip url (sample_rpc 100 10 0 0 18 None) ms s0))
     <> None).
Proof.
  exact (rebinding_overwrites (sample_rpc 100 10 0 0 18 None)
           (fresh unbound_client) "0xTokenA" "0xTokenB" "[]"
           "0xTokenA" "0xTokenB" eq_refl eq_refl eq_refl eq_refl).
Defined.

(** ** C10: the funds check never returns a false value *)

(** C10.  [_ensure_sufficient_funds] never returns [False]: whatever it is
    given it raises or returns [True].  So [prepare_transaction] never
    writes the line of the branch that handles a false result. *)
Theorem funds_check_never_false (eip : bool) (w3 : rpc) (recipient : string)
    (v gas_cost : num) (s : state) :
  (exists s', _ensure_sufficient_funds w3 v gas_cost s = (Return true, s')
              \/ exists e, _ensure_sufficient_funds w3 v gas_cost s
                           = (Raise e, s')) /\
  fst (_ensure_sufficient_funds w3 v gas_cost s) <> Return false /\
  exists l,
    out (snd (prepare_transaction eip w3 recipient v s)) = out s ++ l /\
    ~ In fallback_line l.
Proof.
  assert (HP : forall e, e <> fallback_line ->
                         (fun e' : event => e' <> fallback_line) e)
    by (intros e He; exact He).
  pose proof (ensure_keeps _ HP w3 v gas_cost s) as (_ & _ & Hret).
  split; [|split].
  - destruct (_ensure_sufficient_funds w3 v gas_cost s) as [[b|e] s'] eqn:E.
    + exists s'. left. cbn [fst] in Hret. now rewrite (Hret b eq_refl).
    + exists s'. right. now exists e.
  - intros Hf. specialize (Hret false Hf). discriminate.
  - destruct (prepare_transaction_keeps _ HP eip w3 recipient v s)
      as (_ & (l & Hl & Hall) & _).
    exists l. split; [exact Hl|].
    intros Hin. rewrite Forall_forall in Hall. exact (Hall _ Hin eq_refl).
Qed.

(** * Further properties *)

(** ** A successful [prepare_transaction], step by step *)

Lemma prepare_transaction_run eip w3 recipient v s tx s' :
  prepare_transaction eip w3 recipient v s = (Return tx, s') ->
  exists r chain count t2 m t3 g gas_cost,
    to_checksum_address w3 recipient = Return r /\
    chain_id w3 = Return chain /\
    get_transaction_count w3 (address (self s)) = Return count /\
    match contract (self s) with
    | None =>
        exists wei,
          Web3.to_wei v Web3.ether = Return wei /\
          fee_fields eip w3
            (set_value wei (initial_draft chain count (address (self s)))) s
          = (Return (t2, m), s) /\
          t3 = t2
    | Some c =>
        fee_fields eip w3 (initial_draft chain count (address (self s))) s
        = (Return (t2, m), s) /\
        exists d u amount g0,
          call_decimals w3 (c_address c) = Return d /\
          unit_names d = Some u /\
          Web3.to_wei v u = Return amount /\
          estimate_gas w3 (set_call (c_address c) (Transfer r amount) t2)
          = Return g0 /\
          t3 = set_gas g0 (set_call (c_address c) (Transfer r amount) t2)
    end /\
    estimate_gas w3 t3 = Return g /\
    Web3.from_wei (g * m) Web3.ether = Return gas_cost /\
    _ensure_sufficient_funds w3 v gas_cost s = (Return true, s') /\
    tx = set_gas g t3.
Proof.
  intros H. unfold prepare_transaction, to_wei, build_transfer in H.
  unfold_monad_in H.
  destruct (to_checksum_address w3 recipient) as [r|] eqn:Er; [|discriminate].
  destruct (chain_id w3) as [chain|] eqn:Ec; [|discriminate].
  destruct (get_transaction_count w3 (address (self s))) as [count|] eqn:En;
    [|discriminate].
  fold (initial_draft chain count (address (self s))) in H.
  destruct (contract (self s)) as [c|] eqn:Ek.
  - destruct (fee_fields eip w3 (initial_draft chain count (address (self s))) s)
      as [[[t2 m]|] sf] eqn:Ef; [|discriminate].
    apply fee_fields_inv in Ef as Hf.
    destruct Hf as (-> & Hv & Hto & Hd & Hg & _).
    cbn [fst snd] in H. rewrite Ek in H.
    cbn [gas set_call] in H. rewrite Hg in H. cbn [gas initial_draft] in H.
    split_match_in H.
    all: injection H as <- <-.
    all: match goal with
         | Hb : negb ?b = false |- _ => destruct b; [|discriminate Hb]
         end.
    all: exists r, chain, count, t2, m; eexists; eexists; eexists.
    all: repeat (split; [solve [eauto 12] |]); try solve [eauto 12].
  - destruct (Web3.to_wei v Web3.ether) as [wei|] eqn:Ew; [|discriminate].
    destruct (fee_fields eip w3
                (set_value wei (initial_draft chain count (address (self s))))
                s) as [[[t2 m]|] sf] eqn:Ef; [|discriminate].
    apply fee_fields_inv in Ef as Hf.
    destruct Hf as (-> & Hv & Hto & Hd & Hg & _).
    cbn [fst snd] in H. rewrite Ek in H.
    split_match_in H.
    all: injection H as <- <-.
    all: match goal with
         | Hb : negb ?b = false |- _ => destruct b; [|discriminate Hb]
         end.
    all: exists r, chain, count, t2, m; eexists; eexists; eexists.
    all: repeat (split; [solve [eauto 12] |]); try solve [eauto 12].
Qed.

(** ** Conversions and the funds check, read backwards *)

(** What [from_wei] returns is the quotient by the unit, and it returns
    exactly on the wei amounts. *)
Lemma from_wei_value n u x :
  Web3.from_wei n u = Return x ->
  0 <= n <= Web3.MAX_WEI /\
  (PyDecimal.value x == inject_Z n / inject_Z (Web3.unit_value u))%Q.
Proof.
  unfold Web3.from_wei. pose proof (unit_value_pos u) as Hu.
  assert (NZ : ~ (inject_Z (Web3.unit_value u) == 0)%Q).
  { change 0%Q with (inject_Z 0). rewrite inject_Z_injective. lia. }
  destruct (n =? 0) eqn:E0.
  - apply Z.eqb_eq in E0. subst n. intros [= <-]. split.
    + unfold Web3.MAX_WEI. lia.
    + cbn [PyDecimal.value]. change (inject_Z 0) with 0%Q. field. exact NZ.
  - destruct ((n <? Web3.MIN_WEI) || (Web3.MAX_WEI <? n)) eqn:Er;
      [discriminate|].
    apply orb_false_iff in Er as [E1 E2].
    apply Z.ltb_ge in E1. apply Z.ltb_ge in E2. unfold Web3.MIN_WEI in E1.
    destruct (Web3.toward_ideal (Z.to_nat (Web3.unit_decimals u)) n
                (- Web3.unit_decimals u)) as [c e] eqn:Eti.
    intros [= <-]. split; [lia|].
    rewrite (toward_ideal_value _ _ _ _ _ Eti).
    cbn [PyDecimal.value]. unfold Web3.unit_value.
    assert (0 <= Web3.unit_decimals u) by (destruct u; cbn; lia).
    rewrite Qpower_opp, <- Qpow10_nonneg by assumption. reflexivity.
Qed.

Lemma from_wei_returns n u :
  0 <= n <= Web3.MAX_WEI -> exists x, Web3.from_wei n u = Return x.
Proof.
  intros Hn. unfold Web3.from_wei. destruct (n =? 0); [eauto|].
  replace (n <? Web3.MIN_WEI) with false
    by (symmetry; apply Z.ltb_ge; unfold Web3.MIN_WEI; lia).
  replace (Web3.MAX_WEI <? n) with false by (symmetry; apply Z.ltb_ge; lia).
  cbn [orb].
  destruct (Web3.toward_ideal (Z.to_nat (Web3.unit_decimals u)) n
              (- Web3.unit_decimals u)) as [c e].
  eauto.
Qed.

(** Two converted wei amounts compare as the amounts do. *)
Lemma from_wei_le a b u x y :
  Web3.from_wei a u = Return x -> Web3.from_wei b u = Return y ->
  (PyDecimal.value x <= PyDecimal.value y)%Q <-> a <= b.
Proof.
  intros Hx Hy. apply from_wei_value in Hx as [_ Hx].
  apply from_wei_value in Hy as [_ Hy]. rewrite Hx, Hy.
  pose proof (unit_value_pos u) as Hu.
  assert (P : (0 < inject_Z (Web3.unit_value u))%Q).
  { change 0%Q with (inject_Z 0). rewrite <- Zlt_Qlt. exact Hu. }
  rewrite (Zle_Qle a b). unfold Qdiv.
  split; intros H.
  - apply Qmult_le_r with (z := (/ inject_Z (Web3.unit_value u))%Q);
      [apply Qinv_lt_0_compat; exact P | exact H].
  - apply Qmult_le_r; [apply Qinv_lt_0_compat; exact P | exact H].
Qed.

Ltac unfold_ensure_in H :=
  unfold _ensure_sufficient_funds, from_wei in H;
  unfold logger_error, print in H;
  unfold bind, lift, ret, raise, gets, emit in H; cbn beta iota in H.

(** What a funds check that returned has seen. *)
Lemma ensure_returned w3 v gas_cost s b s' :
  _ensure_sufficient_funds w3 v gas_cost s = (Return b, s') ->
  b = true /\
  exists bw bal,
    get_balance w3 (address (self s)) = Return bw /\
    Web3.from_wei bw Web3.ether = Return bal /\
    (PyDecimal.value gas_cost <= PyDecimal.value bal)%Q /\
    match contract (self s) with
    | None =>
        exists total,
          PyDecimal.add v gas_cost = Return total /\
          (PyDecimal.value total <= PyDecimal.value bal)%Q /\
          s' = say (native_balance_line bal) s
    | Some c =>
        exists tw d u tb,
          call_balanceOf w3 (c_address c) (address (self s)) = Return tw /\
          call_decimals w3 (c_address c) = Return d /\
          unit_names d = Some u /\
          Web3.from_wei tw u = Return tb /\
          (PyDecimal.value v <= PyDecimal.value tb)%Q /\
          s' = say (contract_balance_line tb) (say (native_balance_line bal) s)
    end.
Proof.
  intros H. unfold_ensure_in H.
  destruct (get_balance w3 (address (self s))) as [bw|] eqn:Eb;
    [|discriminate].
  destruct (Web3.from_wei bw Web3.ether) as [bal|] eqn:Ef; [|discriminate].
  destruct (PyDecimal.lt bal gas_cost) eqn:E1; [discriminate|].
  apply lt_false in E1. cbn [self say] in H.
  destruct (contract (self s)) as [c|] eqn:Ek.
  - destruct (call_balanceOf w3 (c_address c) (address (self s))) as [tw|] eqn:Et;
      [|discriminate].
    destruct (call_decimals w3 (c_address c)) as [d|] eqn:Ed; [|discriminate].
    destruct (unit_names d) as [u|] eqn:Eu; [|discriminate].
    destruct (Web3.from_wei tw u) as [tb|] eqn:Etb; [|discriminate].
    destruct (PyDecimal.lt tb v) eqn:E2; [discriminate|].
    apply lt_false in E2. injection H as <- <-.
    split; [reflexivity|]. exists bw, bal.
    do 3 (split; [first [reflexivity | assumption]|]).
    exists tw, d, u, tb.
    do 5 (split; [first [reflexivity | assumption]|]). reflexivity.
  - destruct (PyDecimal.add v gas_cost) as [total|] eqn:Ea; [|discriminate].
    destruct (PyDecimal.lt bal total) eqn:E2; [discriminate|].
    apply lt_false in E2. injection H as <- <-.
    split; [reflexivity|]. exists bw, bal.
    do 3 (split; [first [reflexivity | assumption]|]).
    exists total.
    do 2 (split; [first [reflexivity | assumption]|]). reflexivity.
Qed.

(** ** What a returned draft guarantees *)

(** X1.  Every draft [prepare_transaction] returns is covered for gas: its
    gas limit times its fee rate ([maxFeePerGas] under EIP-1559, [gasPrice]
    otherwise) is at most the sender's native balance, in wei.  For a bound
    client the token balance, converted at the token's decimals, is at
    least the amount. *)
Theorem returned_draft_is_funded (eip : bool) (w3 : rpc) (recipient : string)
    (v : num) (s : state) (tx : TxParams) (s' : state) :
  prepare_transaction eip w3 recipient v s = (Return tx, s') ->
  exists g m bw,
    gas tx = Some g /\
    (if eip then maxFeePerGas tx else gasPrice tx) = Some m /\
    get_balance w3 (address (self s)) = Return bw /\
    0 <= g * m <= bw /\ bw <= Web3.MAX_WEI /\
    match contract (self s) with
    | None => True
    | Some c =>
        exists tw d u tb,
          call_balanceOf w3 (c_address c) (address (self s)) = Return tw /\
          call_decimals w3 (c_address c) = Return d /\
          unit_names d = Some u /\
          Web3.from_wei tw u = Return tb /\
          (PyDecimal.value v <= PyDecimal.value tb)%Q
    end.
Proof.
  intros H. apply prepare_transaction_run in H.
  destruct H as (r & chain & count & t2 & m & t3 & g & gas_cost
                 & _ & _ & _ & Hstep & _ & Hgc & Hens & ->).
  apply ensure_returned in Hens as (_ & bw & bal & Hb & Hbal & Hle & Hrest).
  exists g, m, bw.
  assert (Hfee : (if eip then maxFeePerGas t3 else gasPrice t3) = Some m).
  { destruct (contract (self s)) as [c|].
    - destruct Hstep as (Hf & d & u & amount & g0 & _ & _ & _ & _ & ->).
      apply fee_fields_inv in Hf as (_ & _ & _ & _ & _ & Hf).
      destruct eip.
      + destruct Hf as (base & prio & _ & _ & _ & ->). reflexivity.
      + destruct Hf as (fetched & _ & _ & ->). reflexivity.
    - destruct Hstep as (wei & _ & Hf & ->).
      apply fee_fields_inv in Hf as (_ & _ & _ & _ & _ & Hf).
      destruct eip.
      + destruct Hf as (base & prio & _ & _ & _ & ->). reflexivity.
      + destruct Hf as (fetched & _ & _ & ->). reflexivity. }
  split; [reflexivity|]. split; [destruct eip; exact Hfee|].
  split; [exact Hb|].
  pose proof (from_wei_value _ _ _ Hgc) as [Hrange _].
  pose proof (from_wei_value _ _ _ Hbal) as [Hrange' _].
  apply (from_wei_le _ _ _ _ _ Hgc Hbal) in Hle.
  split; [lia|]. split; [lia|].
  destruct (contract (self s)) as [c|]; [|exact I].
  destruct Hrest as (tw & d & u & tb & H1 & H2 & H3 & H4 & H5 & _).
  exists tw, d, u, tb. auto.
Qed.

(** X2.  A returned draft carries the chain id and the nonce the endpoint
    gave for the sender, the sender as [from], and as [gas] the endpoint's
    estimate for the draft as it stood before; its fee fields are those of
    the fee mode alone: under EIP-1559 both caps and no [gasPrice], under
    the legacy mode a [gasPrice] and no cap. *)
Theorem returned_draft_shape (eip : bool) (w3 : rpc) (recipient : string)
    (v : num) (s : state) (tx : TxParams) (s' : state) :
  prepare_transaction eip w3 recipient v s = (Return tx, s') ->
  (exists chain, chain_id w3 = Return chain /\ chainId tx = Some chain) /\
  (exists count,
     get_transaction_count w3 (address (self s)) = Return count /\
     nonce tx = Some count) /\
  from_ tx = Some (address (self s)) /\
  (exists t3 g, estimate_gas w3 t3 = Return g /\ tx = set_gas g t3) /\
  (if eip
   then maxPriorityFeePerGas tx <> None /\ maxFeePerGas tx <> None /\
        gasPrice tx = None
   else maxPriorityFeePerGas tx = None /\ maxFeePerGas tx = None /\
        gasPrice tx <> None) /\
  self s' = self s.
Proof.
  intros H.
  assert (Hself : self s' = self s).
  { assert (HP : forall e, e <> fallback_line -> (fun _ : event => True) e)
      by (intros; exact I).
    pose proof (proj1 (prepare_transaction_keeps _ HP eip w3 recipient v s))
      as K. rewrite H in K. exact K. }
  apply prepare_transaction_run in H.
  destruct H as (r & chain & count & t2 & m & t3 & g & gas_cost
                 & _ & Hc & Hn & Hstep & Hg & _ & _ & ->).
  assert (Hshape : chainId t3 = Some chain /\ nonce t3 = Some count /\
                   from_ t3 = Some (address (self s)) /\
                   if eip
                   then maxPriorityFeePerGas t3 <> None /\
                        maxFeePerGas t3 <> None /\ gasPrice t3 = None
                   else maxPriorityFeePerGas t3 = None /\
                        maxFeePerGas t3 = None /\ gasPrice t3 <> None).
  { destruct (contract (self s)) as [c|].
    - destruct Hstep as (Hf & d & u & amount & g0 & _ & _ & _ & _ & ->).
      apply fee_fields_inv in Hf as (_ & _ & _ & _ & _ & Hf).
      destruct eip.
      + destruct Hf as (base & prio & _ & _ & _ & ->).
        cbn. repeat split; discriminate.
      + destruct Hf as (fetched & _ & _ & ->).
        cbn. repeat split; discriminate.
    - destruct Hstep as (wei & _ & Hf & ->).
      apply fee_fields_inv in Hf as (_ & _ & _ & _ & _ & Hf).
      destruct eip.
      + destruct Hf as (base & prio & _ & _ & _ & ->).
        cbn. repeat split; discriminate.
      + destruct Hf as (fetched & _ & _ & ->).
        cbn. repeat split; discriminate. }
  destruct Hshape as (H1 & H2 & H3 & H4).
  cbn [chainId nonce from_ set_gas maxPriorityFeePerGas maxFeePerGas gasPrice].
  rewrite H1, H2, H3.
  split; [exists chain; auto|].
  split; [exists count; auto|]. split; [reflexivity|].
  split; [exists t3, g; auto|]. split; [exact H4 | exact Hself].
Qed.

Lemma returned_draft_is_funded_witness :
  exists g m bw,
    gas sample_native_draft = Some g /\
    maxFeePerGas sample_native_draft = Some m /\
    get_balance (sample_rpc 100 10 (wei_of_ether 5) 0 18 None) "0xSender"
    = Return bw /\
    0 <= g * m <= bw /\ bw <= Web3.MAX_WEI /\ True.
Proof.
  exact (returned_draft_is_funded true
           (sample_rpc 100 10 (wei_of_ether 5) 0 18 None)
           "0xRecipient" (PyDec 15 (-1)) (fresh unbound_client)
           sample_native_draft
           (say (native_balance_line (in_ether 5)) (fresh unbound_client))
           eq_refl).
Defined.

Lemma returned_draft_shape_witness :
  (exists chain,
     chain_id (sample_rpc 100 10 (wei_of_ether 5) 30000000 6 None)
     = Return chain /\ chainId sample_token_draft = Some chain) /\
  (exists count,
     get_transaction_count
       (sample_rpc 100 10 (wei_of_ether 5) 30000000 6 None) "0xSender"
     = Return count /\
     nonce sample_token_draft = Some count) /\
  from_ sample_token_draft = Some "0xSender"%string /\
  (exists t3 g,
     estimate_gas (sample_rpc 100 10 (wei_of_ether 5) 30000000 6 None) t3
     = Return g /\ sample_token_draft = set_gas g t3) /\
  (maxPriorityFeePerGas sample_token_draft = None /\
   maxFeePerGas sample_token_draft = None /\
   gasPrice sample_token_draft <> None) /\
  bound_client = bound_client.
Proof.
  exact (returned_draft_shape false
           (sample_rpc 100 10 (wei_of_ether 5) 30000000 6 None)
           "0xRecipient" (PyDec 15 (-1)) (fresh bound_client)
           sample_token_draft
           (say (contract_balance_line (PyDec 30 0))
              (say (native_balance_line (in_ether 5)) (fresh bound_client)))
           eq_refl).
Defined.

(** ** The markup *)

Lemma markup_additive n : 21 * n / 20 = n + n / 20.
Proof.
  replace (21 * n) with (n + n * 20) by lia.
  rewrite Z.div_add by lia. lia.
Qed.

(** X3.  In a returned draft the marked-up fee is the fetched fee plus one
    twentieth of it, rounded down (fees below 2^48 wei): under the legacy
    mode of the fetched gas price, under EIP-1559 of the sum of the gas
    price and the priority fee.  So the fee is never below what was
    fetched, a fetched fee under 20 wei gets no markup at all, and under
    EIP-1559 [maxFeePerGas] is never below [maxPriorityFeePerGas]. *)
Theorem markup_is_a_twentieth (w3 : rpc) (recipient : string) (v : num)
    (s : state) (tx : TxParams) (s' : state) :
  (forall base,
     gas_price w3 = Return base -> 0 <= base < 2 ^ 48 ->
     prepare_transaction false w3 recipient v s = (Return tx, s') ->
     exists fee,
       gasPrice tx = Some fee /\
       fee = base + base / 20 /\
       base <= fee /\
       (base < 20 -> fee = base)) /\
  (forall base prio,
     gas_price w3 = Return base -> max_priority_fee w3 = Return prio ->
     0 <= base -> 0 <= prio -> base + prio < 2 ^ 48 ->
     prepare_transaction true w3 recipient v s = (Return tx, s') ->
     exists fee,
       maxFeePerGas tx = Some fee /\
       fee = (base + prio) + (base + prio) / 20 /\
       base + prio <= fee /\
       (base + prio < 20 -> fee = base + prio) /\
       maxPriorityFeePerGas tx = Some prio /\ prio <= fee).
Proof.
  assert (Hfloor : forall x, 0 <= x < 2 ^ 48 ->
            PyFloat.int_mul_1_05 x = Return (x + x / 20)).
  { intros x Hx. rewrite <- markup_additive. now apply int_mul_1_05_floor. }
  assert (Hdiv : forall x, 0 <= x -> 0 <= x / 20)
    by (intros x Hx; apply Z.div_pos; lia).
  assert (Hsmall : forall x, 0 <= x < 20 -> x / 20 = 0)
    by (intros x Hx; apply Z.div_small; lia).
  split.
  - intros base Eb Hb H. apply prepare_transaction_inv in H.
    destruct H as (r & t1 & t2 & m & _ & Hf & _ & _ & H3 & _).
    apply fee_fields_inv in Hf as (_ & _ & _ & _ & _ & Hf).
    destruct Hf as (base' & Eb' & Hm & ->).
    rewrite Eb in Eb'. injection Eb' as <-.
    rewrite (Hfloor base Hb) in Hm. injection Hm as <-.
    exists (base + base / 20). rewrite H3. cbn.
    pose proof (Hdiv base ltac:(lia)).
    split; [reflexivity|]. split; [reflexivity|]. split; [lia|].
    intros Hs. rewrite (Hsmall base) by lia. lia.
  - intros base prio Eb Ep Hb Hp Hlt H. apply prepare_transaction_inv in H.
    destruct H as (r & t1 & t2 & m & _ & Hf & H1 & H2 & _).
    apply fee_fields_inv in Hf as (_ & _ & _ & _ & _ & Hf).
    destruct Hf as (base' & prio' & Eb' & Ep' & Hm & ->).
    rewrite Eb in Eb'. injection Eb' as <-.
    rewrite Ep in Ep'. injection Ep' as <-.
    rewrite (Hfloor (base + prio)) in Hm by lia. injection Hm as <-.
    exists (base + prio + (base + prio) / 20). rewrite H1, H2. cbn.
    pose proof (Hdiv (base + prio) ltac:(lia)).
    split; [reflexivity|]. split; [reflexivity|]. split; [lia|].
    split; [intros Hs; rewrite (Hsmall (base + prio)) by lia; lia|].
    split; [reflexivity | lia].
Qed.

(** A gas price of 19 wei is passed on as 19, on an endpoint without a
    priority fee; a gas price of 100 with a priority fee of 10 gives 115. *)
Lemma markup_is_a_twentieth_witness :
  (exists fee,
     gasPrice sample_low_fee_draft = Some fee /\
     fee = 19 + 19 / 20 /\ 19 <= fee /\ (19 < 20 -> fee = 19)) /\
  (exists fee,
     maxFeePerGas sample_native_draft = Some fee /\
     fee = (100 + 10) + (100 + 10) / 20 /\
     100 + 10 <= fee /\
     (100 + 10 < 20 -> fee = 100 + 10) /\
     maxPriorityFeePerGas sample_native_draft = Some 10 /\ 10 <= fee).
Proof.
  split.
  - exact (proj1 (markup_is_a_twentieth
                    (without_priority_fee
                       (sample_rpc 19 0 (wei_of_ether 5) 0 18 None))
                    "0xRecipient" (PyDec 15 (-1)) (fresh unbound_client)
                    sample_low_fee_draft
                    (say (native_balance_line (in_ether 5))
                       (fresh unbound_client)))
             19 eq_refl ltac:(split; [lia | reflexivity]) eq_refl).
  - exact (proj2 (markup_is_a_twentieth
                    (sample_rpc 100 10 (wei_of_ether 5) 0 18 None)
                    "0xRecipient" (PyDec 15 (-1)) (fresh unbound_client)
                    sample_native_draft
                    (say (native_balance_line (in_ether 5))
                       (fresh unbound_client)))
             100 10 eq_refl eq_refl ltac:(lia) ltac:(lia)
             ltac:(reflexivity) eq_refl).
Defined.

(** ** Base units to decimal and back *)

(** X4.  For [d] in {6, 9, 18} every wei amount [n] (0 <= n <= 2^256 - 1)
    survives the other round trip: [from_wei n d] returns a number and
    [to_wei] of that number returns [n]. *)
Theorem wei_round_trip (d : Z) (n : Z) (s : state) :
  d = 6 \/ d = 9 \/ d = 18 ->
  0 <= n <= Web3.MAX_WEI ->
  exists x,
    from_wei n d s = (Return x, s) /\ to_wei x d s = (Return n, s) /\
    (x <- from_wei n d ;; to_wei x d) s = (Return n, s).
Proof.
  intros Hd Hn.
  assert (exists u, unit_names d = Some u) as (u & Hu).
  { destruct Hd as [-> | [-> | ->]]; eexists; reflexivity. }
  destruct (from_wei_returns n u Hn) as (x & Hx).
  pose proof (from_wei_value n u x Hx) as [_ Hv].
  destruct (web3_round_trip x u n Hn Hv) as (Hto & _).
  assert (F : from_wei n d s = (Return x, s)).
  { unfold from_wei. rewrite Hu. unfold lift. now rewrite Hx. }
  assert (T : to_wei x d s = (Return n, s)).
  { unfold to_wei. rewrite Hu. unfold lift. now rewrite Hto. }
  exists x. split; [exact F|]. split; [exact T|].
  unfold bind. rewrite F. exact T.
Qed.

Lemma wei_round_trip_witness :
  exists x,
    from_wei 1500000 6 (fresh unbound_client)
    = (Return x, fresh unbound_client) /\
    to_wei x 6 (fresh unbound_client)
    = (Return 1500000, fresh unbound_client) /\
    (y <- from_wei 1500000 6 ;; to_wei y 6) (fresh unbound_client)
    = (Return 1500000, fresh unbound_client).
Proof.
  apply (wei_round_trip 6 1500000 (fresh unbound_client)).
  - left; reflexivity.
  - split; [discriminate | vm_compute; discriminate].
Defined.

(** ** Binding, and what never changes *)

(** The three ways [set_contract] ends: bound; nothing assigned, when the
    file or the address fails; the address assigned and the handle not,
    when the library rejects the ABI. *)
Lemma set_contract_cases w3 a s :
  (exists abi k,
     read_abi w3 "ERC20_ABI.json" = Return abi /\
     to_checksum_address w3 a = Return k /\
     validate_abi w3 abi = Return tt /\
     set_contract w3 a s
     = (Return tt,
        {| self := {| private_key := private_key (self s);
                      address := address (self s);
                      contract := Some {| c_address := k; c_abi := abi |};
                      contract_address := Some k |};
           out := out s |})) \/
  (exists e, set_contract w3 a s = (Raise e, s) /\
             (read_abi w3 "ERC20_ABI.json" = Raise e \/
              to_checksum_address w3 a = Raise e)) \/
  (exists abi k e,
     read_abi w3 "ERC20_ABI.json" = Return abi /\
     to_checksum_address w3 a = Return k /\
     validate_abi w3 abi = Raise e /\
     set_contract w3 a s
     = (Raise e,
        {| self := {| private_key := private_key (self s);
                      address := address (self s);
                      contract := contract (self s);
                      contract_address := Some k |};
           out := out s |})).
Proof.
  unfold set_contract, _load_abi, eth_contract, modify. unfold_monad.
  destruct (read_abi w3 "ERC20_ABI.json") as [abi|e] eqn:Ea.
  - destruct (to_checksum_address w3 a) as [k|e] eqn:Ek.
    + cbn. destruct (validate_abi w3 abi) as [[]|e] eqn:Ev.
      * left. exists abi, k. auto.
      * right. right. exists abi, k, e. auto.
    + right. left. exists e. auto.
  - right. left. exists e. auto.
Qed.

(** X5.  [set_contract] assigns nothing before the ABI is loaded and the
    address normalised.  If the ABI file does not load, or it loads and the
    address is malformed, that error is raised and the client and the
    output are exactly as before: an earlier binding stays in force.  If
    [set_contract] returns, the client is bound to the checksummed address
    with a handle at that address, and nothing else about it has changed. *)
Theorem set_contract_failure_keeps_binding (w3 : rpc) (a : string)
    (s : state) :
  (forall e,
     read_abi w3 "ERC20_ABI.json" = Raise e ->
     set_contract w3 a s = (Raise e, s)) /\
  (forall abi e,
     read_abi w3 "ERC20_ABI.json" = Return abi ->
     to_checksum_address w3 a = Raise e ->
     set_contract w3 a s = (Raise e, s)) /\
  (forall s',
     set_contract w3 a s = (Return tt, s') ->
     exists abi k,
       read_abi w3 "ERC20_ABI.json" = Return abi /\
       to_checksum_address w3 a = Return k /\
       contract (self s') = Some {| c_address := k; c_abi := abi |} /\
       contract_address (self s') = Some k /\
       private_key (self s') = private_key (self s) /\
       address (self s') = address (self s) /\
       out s' = out s).
Proof.
  split; [|split].
  - intros e He. unfold set_contract, _load_abi. unfold_monad.
    now rewrite He.
  - intros abi e Ha He. unfold set_contract, _load_abi. unfold_monad.
    now rewrite Ha, He.
  - destruct (set_contract_cases w3 a s)
      as [(abi & k & Ha & Hk & _ & Hrun)
         | [(e & Hrun & _) | (abi & k & e & _ & _ & _ & Hrun)]];
      rewrite Hrun; [|discriminate..].
    intros s' [= <-]. exists abi, k. cbn. auto 10.
Qed.

(** A malformed address on a bound client, and a well-formed one. *)
Lemma set_contract_failure_keeps_binding_witness :
  set_contract
    (override (sample_rpc 100 10 0 0 18 None)
       (fun _ => Raise (ValueError [Lit "invalid address"]))
       (fun _ => Return 21000) (fun _ _ => Return "0xf86b"%string)
       (fun _ => Return "0x5c50"%string) 1)
    "Token" (fresh bound_client)
  = (Raise (ValueError [Lit "invalid address"]), fresh bound_client) /\
  exists abi k,
    read_abi (sample_rpc 100 10 0 0 18 None) "ERC20_ABI.json" = Return abi /\
    to_checksum_address (sample_rpc 100 10 0 0 18 None) "0xTokenB"
    = Return k /\
    contract (self (snd (set_contract (sample_rpc 100 10 0 0 18 None)
                           "0xTokenB" (fresh bound_client))))
    = Some {| c_address := k; c_abi := abi |} /\
    contract_address (self (snd (set_contract (sample_rpc 100 10 0 0 18 None)
                                   "0xTokenB" (fresh bound_client))))
    = Some k /\
    private_key (self (snd (set_contract (sample_rpc 100 10 0 0 18 None)
                              "0xTokenB" (fresh bound_client))))
    = private_key bound_client /\
    address (self (snd (set_contract (sample_rpc 100 10 0 0 18 None)
                          "0xTokenB" (fresh bound_client))))
    = address bound_client /\
    out (snd (set_contract (sample_rpc 100 10 0 0 18 None)
                "0xTokenB" (fresh bound_client))) = [].
Proof.
  split.
  - exact (proj1 (proj2 (set_contract_failure_keeps_binding
                    (override (sample_rpc 100 10 0 0 18 None)
                       (fun _ => Raise (ValueError [Lit "invalid address"]))
                       (fun _ => Return 21000)
                       (fun _ _ => Return "0xf86b"%string)
                       (fun _ => Return "0x5c50"%string) 1)
                    "Token" (fresh bound_client)))
             "[]"%string (ValueError [Lit "invalid address"])
             eq_refl eq_refl).
  - exact (proj2 (proj2 (set_contract_failure_keeps_binding
                    (sample_rpc 100 10 0 0 18 None) "0xTokenB"
                    (fresh bound_client)))
             _ eq_refl).
Defined.

Lemma call_self eip url w3 m s :
  (forall a, m <> SetContract a) -> self (call eip url w3 m s) = self s.
Proof.
  intros Hm.
  assert (HP : forall e, e <> fallback_line -> (fun _ : event => True) e)
    by (intros; exact I).
  destruct m as [a | v d | n d | r v | t | h | v g | p]; cbn [call].
  - destruct (Hm a eq_refl).
  - exact (proj1 (to_wei_keeps _ HP v d s)).
  - exact (proj1 (from_wei_keeps _ HP n d s)).
  - exact (proj1 (prepare_transaction_keeps _ HP eip w3 r v s)).
  - exact (proj1 (sign_and_send_transaction_keeps _ HP url w3 t s)).
  - exact (proj1 (wait_for_transaction_keeps _ HP w3 h s)).
  - exact (proj1 (ensure_keeps _ HP w3 v g s)).
  - exact (proj1 (load_abi_keeps (fun _ => True) w3 p s)).
Qed.

Lemma call_identity eip url w3 m s :
  private_key (self (call eip url w3 m s)) = private_key (self s) /\
  address (self (call eip url w3 m s)) = address (self s).
Proof.
  destruct m as [a | | | | | | |].
  2-8: rewrite call_self by discriminate; auto.
  cbn [call].
  destruct (set_contract_cases w3 a s)
    as [(abi & k & _ & _ & _ & Hrun)
       | [(e & Hrun & _) | (abi & k & e & _ & _ & _ & Hrun)]];
    rewrite Hrun; cbn; auto.
Qed.

(** X6.  Over any sequence of calls of the methods, returning or raising,
    the private key and the address of the client stay what they were, and
    a sequence without [set_contract] leaves the whole client as it was:
    only [set_contract] assigns to an attribute. *)
Theorem identity_is_immutable (eip : bool) (url : string) (w3 : rpc)
    (ms : list method) (s : state) :
  private_key (self (calls eip url w3 ms s)) = private_key (self s) /\
  address (self (calls eip url w3 ms s)) = address (self s) /\
  ((forall m a, In m ms -> m <> SetContract a) ->
   self (calls eip url w3 ms s) = self s).
Proof.
  unfold calls. revert s.
  induction ms as [| m ms IH]; intros s; cbn [fold_left].
  - auto.
  - destruct (IH (call eip url w3 m s)) as (I1 & I2 & I4).
    destruct (call_identity eip url w3 m s) as (C1 & C2).
    split; [congruence|]. split; [congruence|].
    intros Hno. rewrite I4.
    + apply call_self. intros a. apply Hno. left. reflexivity.
    + intros m' a Hin. apply Hno. right. exact Hin.
Qed.

(** Two bindings around a transfer, and a transfer and a wait on a bound
    client. *)
Lemma identity_is_immutable_witness :
  private_key
    (self (calls true "https://explorer" (sample_rpc 100 10 0 0 18 None)
             [SetContract "0xTokenA"; PrepareTransaction "0xR" (PyInt 1);
              SetContract "0xTokenB"] (fresh unbound_client)))
  = "0xkey"%string /\
  self (calls true "https://explorer" (sample_rpc 100 10 0 0 18 None)
          [PrepareTransaction "0xR" (PyInt 1); WaitForTransaction "0x5c50"]
          (fresh bound_client))
  = bound_client.
Proof.
  split.
  - exact (proj1 (identity_is_immutable true "https://explorer"
                    (sample_rpc 100 10 0 0 18 None)
                    [SetContract "0xTokenA"; PrepareTransaction "0xR" (PyInt 1);
                     SetContract "0xTokenB"] (fresh unbound_client))).
  - apply (proj2 (proj2 (identity_is_immutable true "https://explorer"
                    (sample_rpc 100 10 0 0 18 None)
                    [PrepareTransaction "0xR" (PyInt 1);
                     WaitForTransaction "0x5c50"] (fresh bound_client)))).
    intros m a [<- | [<- | []]]; discriminate.
Defined.

(** X14.  [set_contract] assigns the checksummed address before it makes
    the handle.  When the file loads and the address normalises but the
    library rejects the ABI, the error is raised with [contract_address]
    already set to the new address and [contract] still what it was: a
    client that was unbound goes on as unbound, a bound one keeps the handle
    of its earlier token under the new address.  Key, address and output
    are unchanged. *)
Theorem rejected_abi_leaves_address (w3 : rpc) (a : string) (s : state)
    (abi k : string) (e : exn) :
  read_abi w3 "ERC20_ABI.json" = Return abi ->
  to_checksum_address w3 a = Return k ->
  validate_abi w3 abi = Raise e ->
  exists s',
    set_contract w3 a s = (Raise e, s') /\
    contract_address (self s') = Some k /\
    contract (self s') = contract (self s) /\
    private_key (self s') = private_key (self s) /\
    address (self s') = address (self s) /\
    out s' = out s.
Proof.
  intros Ha Hk Hv.
  unfold set_contract, _load_abi, eth_contract, modify. unfold_monad.
  rewrite Ha, Hk. cbn. rewrite Hv.
  eexists. split; [reflexivity|]. cbn. auto.
Qed.

(** A second binding refused for its ABI, on a client bound to a first
    token. *)
Lemma rejected_abi_leaves_address_witness :
  exists s',
    set_contract (with_invalid_abi (sample_rpc 100 10 0 0 18 None))
      "0xTokenB" (fresh bound_client)
    = (Raise (ValueError [Lit "'abi' is not a list"]), s') /\
    contract_address (self s') = Some "0xTokenB"%string /\
    contract (self s') = Some sample_token /\
    private_key (self s') = "0xkey"%string /\
    address (self s') = "0xSender"%string /\
    out s' = [].
Proof.
  exact (rejected_abi_leaves_address
           (with_invalid_abi (sample_rpc 100 10 0 0 18 None))
           "0xTokenB" (fresh bound_client) "[]" "0xTokenB"
           (ValueError [Lit "'abi' is not a list"])
           eq_refl eq_refl eq_refl).
Defined.

(** ** Signing and sending *)

(** What a [sign_and_send_transaction] that returned has done. *)
Lemma sign_and_send_returned url w3 tx s h s' :
  sign_and_send_transaction url w3 tx s = (Return h, s') ->
  exists raw,
    sign_transaction w3 tx (private_key (self s)) = Return raw /\
    send_raw_transaction w3 raw = Return h /\
    s' = say (explorer_line url h) (say signed_line s).
Proof.
  unfold sign_and_send_transaction, on_invalid_transaction. unfold_monad.
  destruct (sign_transaction w3 tx (private_key (self s))) as [raw|e] eqn:Es.
  - cbn [self say].
    destruct (send_raw_transaction w3 raw) as [h'|e] eqn:Eh.
    + intros [= <- <-]. exists raw. auto.
    + destruct e; discriminate.
  - destruct e; discriminate.
Qed.

(** X7.  [sign_and_send_transaction] returns a hash only when the draft was
    signed with the client's key and the endpoint accepted the raw
    transaction; the hash is the endpoint's, and the output gains the line
    that it was signed and the explorer link [url/tx/hash].  When it raises,
    the exception is that of the signer or of the endpoint, unchanged; an
    [InvalidTransaction] is logged once with its reason, any other failure
    is not logged.  Nothing is reported as signed unless the signer
    returned. *)
Theorem sign_and_send_outcomes (url : string) (w3 : rpc) (tx : TxParams)
    (s : state) :
  (forall h s',
     sign_and_send_transaction url w3 tx s = (Return h, s') ->
     exists raw,
       sign_transaction w3 tx (private_key (self s)) = Return raw /\
       send_raw_transaction w3 raw = Return h /\
       s' = say (explorer_line url h) (say signed_line s)) /\
  (forall e s',
     sign_and_send_transaction url w3 tx s = (Raise e, s') ->
     let s1 := match e with
               | InvalidTransaction r => say (transaction_failed_line r)
               | _ => fun s0 => s0
               end in
     (sign_transaction w3 tx (private_key (self s)) = Raise e /\
      s' = s1 s) \/
     (exists raw,
        sign_transaction w3 tx (private_key (self s)) = Return raw /\
        send_raw_transaction w3 raw = Raise e /\
        s' = s1 (say signed_line s))).
Proof.
  unfold sign_and_send_transaction, on_invalid_transaction. unfold_monad.
  destruct (sign_transaction w3 tx (private_key (self s))) as [raw|e] eqn:Es.
  - cbn [self say].
    destruct (send_raw_transaction w3 raw) as [h|e] eqn:Eh.
    + split.
      * intros h' s' [= <- <-]. exists raw. auto.
      * intros e s' [=].
    + split; [destruct e; discriminate|].
      intros e' s' H. right. exists raw.
      destruct e; injection H as <- <-; auto.
  - split; [destruct e; discriminate|].
    intros e' s' H. left.
    destruct e; injection H as <- <-; auto.
Qed.

(** An accepted transaction, and one the endpoint rejects. *)
Lemma sign_and_send_outcomes_witness :
  (exists raw,
     sign_transaction (sample_rpc 100 10 0 0 18 None) sample_native_draft
       "0xkey" = Return raw /\
     send_raw_transaction (sample_rpc 100 10 0 0 18 None) raw
     = Return "0x5c50"%string) /\
  (exists raw,
     sign_transaction rejecting_rpc sample_native_draft "0xkey"
     = Return raw /\
     send_raw_transaction rejecting_rpc raw
     = Raise (InvalidTransaction "nonce too low")).
Proof.
  split.
  - destruct (proj1 (sign_and_send_outcomes "https://explorer"
                       (sample_rpc 100 10 0 0 18 None) sample_native_draft
                       (fresh unbound_client))
                "0x5c50"%string _ eq_refl) as (raw & Hs & Hh & _).
    exists raw. split; assumption.
  - destruct (proj2 (sign_and_send_outcomes "https://explorer"
                       rejecting_rpc sample_native_draft
                       (fresh unbound_client))
                (InvalidTransaction "nonce too low") _ eq_refl)
      as [[Hs _] | (raw & Hs & Hh & _)].
    + discriminate Hs.
    + exists raw. split; assumption.
Defined.

(** ** Waiting for the receipt *)



(** ** Failures of [prepare_transaction] for a token *)

(** X8.  A bound client cannot prepare a transfer of a token whose decimals
    are not 6, 9 or 18: once the recipient, the chain id, the nonce and the
    fees are obtained, [prepare_transaction] logs the missing unit and
    raises the [ValueError] naming the decimals, before any gas estimate or
    funds check; the client is as before. *)
Theorem unsupported_token_blocks_transfer (eip : bool) (w3 : rpc)
    (recipient : string) (v : num) (s : state) (c : AsyncContract)
    (r : string) (chain count d : Z) (fees : TxParams * Z) :
  contract (self s) = Some c ->
  to_checksum_address w3 recipient = Return r ->
  chain_id w3 = Return chain ->
  get_transaction_count w3 (address (self s)) = Return count ->
  fee_fields eip w3 (initial_draft chain count (address (self s))) s
  = (Return fees, s) ->
  call_decimals w3 (c_address c) = Return d ->
  d <> 6 -> d <> 9 -> d <> 18 ->
  prepare_transaction eip w3 recipient v s
  = (Raise (ValueError (cant_find_unit_name d)),
     say (LoggerError (cant_find_unit_name d)) s).
Proof.
  intros Hc Hr Hch Hn Hf Hd H6 H9 H18.
  unfold prepare_transaction. unfold_monad.
  rewrite Hr, Hch, Hn, Hc.
  fold (initial_draft chain count (address (self s))). rewrite Hf, Hc.
  unfold on_contract_logic_error. unfold_monad. rewrite Hd.
  unfold to_wei. rewrite (unit_names_none d H6 H9 H18). reflexivity.
Qed.

(** A token of 8 decimals. *)
Lemma unsupported_token_blocks_transfer_witness :
  prepare_transaction false (sample_rpc 100 10 (wei_of_ether 5) 150000000 8 None)
    "0xRecipient" (PyDec 15 (-1)) (fresh bound_client)
  = (Raise (ValueError (cant_find_unit_name 8)),
     say (LoggerError (cant_find_unit_name 8)) (fresh bound_client)).
Proof.
  exact (unsupported_token_blocks_transfer false
           (sample_rpc 100 10 (wei_of_ether 5) 150000000 8 None)
           "0xRecipient" (PyDec 15 (-1)) (fresh bound_client) sample_token
           "0xRecipient" 1 7 8
           (set_gasPrice 105 (initial_draft 1 7 "0xSender"), 105)
           eq_refl eq_refl eq_refl eq_refl eq_refl eq_refl
           ltac:(discriminate) ltac:(discriminate) ltac:(discriminate)).
Defined.

(** X9.  A revert is logged only for a token.  For a bound client, a
    [ContractLogicError] from the gas estimate made while the transfer call
    is built is logged as "Transaction failed: reason" and raised again.
    For an unbound client a [ContractLogicError] from the gas estimate of
    the draft is raised with nothing logged.  In both cases no balance has
    been asked for. *)
Theorem revert_logged_only_for_token (eip : bool) (w3 : rpc)
    (recipient : string) (v : num) (s : state)
    (r : string) (chain count : Z) (t2 : TxParams) (m : Z) (reason : string) :
  to_checksum_address w3 recipient = Return r ->
  chain_id w3 = Return chain ->
  get_transaction_count w3 (address (self s)) = Return count ->
  (forall c d u amount,
     contract (self s) = Some c ->
     fee_fields eip w3 (initial_draft chain count (address (self s))) s
     = (Return (t2, m), s) ->
     call_decimals w3 (c_address c) = Return d ->
     unit_names d = Some u ->
     Web3.to_wei v u = Return amount ->
     estimate_gas w3 (set_call (c_address c) (Transfer r amount) t2)
     = Raise (ContractLogicError reason) ->
     prepare_transaction eip w3 recipient v s
     = (Raise (ContractLogicError reason),
        say (LoggerError [Lit "Transaction failed: "; FStr reason]) s)) /\
  (forall wei,
     contract (self s) = None ->
     Web3.to_wei v Web3.ether = Return wei ->
     fee_fields eip w3
       (set_value wei (initial_draft chain count (address (self s)))) s
     = (Return (t2, m), s) ->
     estimate_gas w3 t2 = Raise (ContractLogicError reason) ->
     prepare_transaction eip w3 recipient v s
     = (Raise (ContractLogicError reason), s)).
Proof.
  intros Hr Hch Hn. split.
  - intros c d u amount Hc Hf Hd Hu Hw He.
    pose proof (fee_fields_inv _ _ _ _ _ _ _ Hf) as (_ & _ & _ & _ & Hg & _).
    unfold prepare_transaction. unfold_monad.
    rewrite Hr, Hch, Hn, Hc.
    fold (initial_draft chain count (address (self s))). rewrite Hf, Hc.
    unfold on_contract_logic_error. unfold_monad. rewrite Hd.
    unfold to_wei. rewrite Hu. unfold build_transfer. unfold_monad.
    rewrite Hw. cbn [fst snd gas set_call]. rewrite Hg.
    cbn [gas initial_draft]. rewrite He. reflexivity.
  - intros wei Hc Hw Hf He.
    unfold prepare_transaction. unfold_monad.
    rewrite Hr, Hch, Hn, Hc, Hw.
    fold (initial_draft chain count (address (self s))). rewrite Hf, Hc.
    cbn [fst snd]. rewrite He. reflexivity.
Qed.

(** A token transfer and a native transfer on an endpoint whose gas
    estimates revert. *)
Lemma revert_logged_only_for_token_witness :
  prepare_transaction false reverting_rpc "0xRecipient" (PyDec 15 (-1))
    (fresh bound_client)
  = (Raise (ContractLogicError "execution reverted"),
     say (LoggerError [Lit "Transaction failed: "; FStr "execution reverted"])
       (fresh bound_client)) /\
  prepare_transaction false reverting_rpc "0xRecipient" (PyDec 15 (-1))
    (fresh unbound_client)
  = (Raise (ContractLogicError "execution reverted"), fresh unbound_client).
Proof.
  split.
  - exact (proj1 (revert_logged_only_for_token false reverting_rpc
                    "0xRecipient" (PyDec 15 (-1)) (fresh bound_client)
                    "0xRecipient" 1 7
                    (set_gasPrice 105 (initial_draft 1 7 "0xSender")) 105
                    "execution reverted" eq_refl eq_refl eq_refl)
             sample_token 6 Web3.mwei 1500000
             eq_refl eq_refl eq_refl eq_refl eq_refl eq_refl).
  - exact (proj2 (revert_logged_only_for_token false reverting_rpc
                    "0xRecipient" (PyDec 15 (-1)) (fresh unbound_client)
                    "0xRecipient" 1 7
                    (set_gasPrice 105
                       (set_value 1500000000000000000
                          (initial_draft 1 7 "0xSender"))) 105
                    "execution reverted" eq_refl eq_refl eq_refl)
             1500000000000000000 eq_refl eq_refl eq_refl eq_refl).
Defined.

(** ** The lines of the methods *)

Ltac lines_step :=
  lazymatch goal with
  | |- keeps _ _ (bind _ _) =>
      first [ eapply keeps_bind;
              [solve [eauto] | intros ? ?; cbv beta in *; subst; cbn [negb]]
            | eapply keeps_bind with (R1 := anything); [ | intros ? _] ]
  | |- keeps _ _ (ret _) => apply keeps_ret; first [exact I | reflexivity]
  | |- keeps _ _ (lift _) => apply keeps_lift
  | |- keeps _ _ (raise _) => apply keeps_raise
  | |- keeps _ _ (gets _) => apply keeps_gets
  | |- keeps _ _ (emit _) =>
      apply keeps_emit;
      first [ apply line_logged | apply line_native_balance
            | apply line_contract_balance | apply line_signed
            | apply line_explorer ]
  | |- keeps _ _ (on_contract_logic_error _ _) =>
      apply keeps_on_contract_logic_error; [ | intros ? ]
  | |- keeps _ _ (on_invalid_transaction _ _) =>
      apply keeps_on_invalid_transaction; [ | intros ? ]
  | |- keeps _ _ (on_time_exhausted _ _) => apply keeps_on_time_exhausted
  | |- keeps _ _ (match ?x with _ => _ end) => destruct x
  | |- keeps _ _ (let _ := _ in _) => cbv zeta
  | |- keeps _ _ _ => solve [eauto]
  end.

Ltac lines_run := unfold logger_error, print; repeat lines_step.

Lemma to_wei_lines v d : keeps method_line anything (to_wei v d).
Proof. unfold to_wei. lines_run. Qed.

Lemma from_wei_lines n d : keeps method_line anything (from_wei n d).
Proof. unfold from_wei. lines_run. Qed.

Lemma ensure_lines w3 v g :
  keeps method_line (fun b => b = true) (_ensure_sufficient_funds w3 v g).
Proof.
  pose proof from_wei_lines. unfold _ensure_sufficient_funds. lines_run.
Qed.

Lemma prepare_transaction_lines eip w3 r v :
  keeps method_line anything (prepare_transaction eip w3 r v).
Proof.
  pose proof to_wei_lines. pose proof ensure_lines.
  pose proof (fee_fields_keeps method_line eip w3).
  pose proof (build_transfer_keeps method_line w3).
  unfold prepare_transaction. lines_run.
Qed.

Lemma sign_and_send_transaction_lines url w3 t :
  keeps method_line anything (sign_and_send_transaction url w3 t).
Proof. unfold sign_and_send_transaction. lines_run. Qed.

Lemma wait_for_transaction_lines w3 h :
  keeps method_line anything (wait_for_transaction w3 h).
Proof. unfold wait_for_transaction. lines_run. Qed.

(** ** [main] *)

Lemma method_line_not_a_verdict e : method_line e -> not_a_verdict e.
Proof. intros H; destruct H; split; discriminate. Qed.

Lemma lines_not_verdicts l : Forall method_line l -> Forall not_a_verdict l.
Proof. apply Forall_impl. exact method_line_not_a_verdict. Qed.

Lemma prompt_not_a_verdict m :
  m <> "Transaction succeeded"%string -> m <> "Transaction failed"%string ->
  not_a_verdict (prompt m).
Proof. intros H1 H2. split; intros [= E]; congruence. Qed.

(** The state of a call, with what it added to the output. *)
Lemma keeps_out {A} (P : event -> Prop) (R : A -> Prop) (m : M A) s o s' :
  keeps P R m -> m s = (o, s') ->
  self s' = self s /\ exists l, out s' = out s ++ l /\ Forall P l.
Proof.
  intros K E. destruct (K s) as (H1 & H2 & _). rewrite E in *. auto.
Qed.

(** Every run of [main]: either it raises, having written no verdict, or
    it went through all the stages and the verdict is its last line. *)
Lemma main_cases eip url w3 h typed o l :
  main eip url w3 h typed = (o, l) ->
  (exists e, o = Raise e /\ Forall not_a_verdict l) \/
  (o = Return tt /\
   exists s1 amount tx s2 tx_hash s3 r,
     address_from_key h (private_key_line typed) = Return (address (self s1)) /\
     private_key (self s1) = private_key_line typed /\
     match non_empty (contract_address_line typed) with
     | None => contract (self s1) = None
     | Some a =>
         exists abi k,
           to_checksum_address w3 a = Return k /\
           contract (self s1) = Some {| c_address := k; c_abi := abi |}
     end /\
     decimal_of_string h (amount_line typed) = Return amount /\
     prepare_transaction eip w3 (recipient_line typed) amount s1
     = (Return tx, s2) /\
     sign_and_send_transaction url w3 tx s2 = (Return tx_hash, s3) /\
     wait_for_transaction_receipt w3 tx_hash = Return r /\
     Forall not_a_verdict (out s3) /\
     l = out s3 ++ [if status r =? 1 then succeeded_line else failed_line]).
Proof.
  unfold main, __init__. intros H.
  set (asked := [prompt "Enter private key: ";
                 prompt "Enter proxy or leave empty: ";
                 prompt
                   "Enter contract address or leave empty to use native token: "])
    in *.
  assert (Hasked : Forall not_a_verdict asked).
  { unfold asked. repeat constructor; discriminate. }
  destruct (address_from_key h (private_key_line typed)) as [me|e] eqn:Ekey.
  2:{ injection H as <- <-. left. eauto. }
  set (s0 := {| self := {| private_key := private_key_line typed;
                           address := me; contract := None;
                           contract_address := None |};
                out := asked |}) in *.
  (* the binding *)
  assert (Hbind :
    exists ob sb,
      (match non_empty (contract_address_line typed) with
       | Some a => set_contract w3 a
       | None => ret tt
       end) s0 = (ob, sb) /\
      out sb = asked /\ address (self sb) = me /\
      private_key (self sb) = private_key_line typed /\
      (forall u, ob = Return u ->
         match non_empty (contract_address_line typed) with
         | None => contract (self sb) = None
         | Some a =>
             exists abi k,
               to_checksum_address w3 a = Return k /\
               contract (self sb) = Some {| c_address := k; c_abi := abi |}
         end)).
  { destruct (non_empty (contract_address_line typed)) as [a|].
    - destruct (set_contract_cases w3 a s0)
        as [(abi & k & _ & Hk & _ & Hrun)
           | [(e & Hrun & _) | (abi & k & e & _ & _ & _ & Hrun)]];
        rewrite Hrun; do 2 eexists; (split; [reflexivity|]); cbn.
      + repeat split; trivial. intros _ _. eauto.
      + repeat split; trivial. discriminate.
      + repeat split; trivial. discriminate.
    - do 2 eexists. split; [reflexivity|]. cbn. auto. }
  destruct Hbind as (ob & sb & Hb & Hob & Hme & Hpk & Hbound).
  cbv zeta in H.
  match type of H with
  | context [snd ?X] => destruct X as [o' sfin] eqn:Erun
  end.
  cbn [fst snd] in H. injection H as <- <-. rename Erun into H.
  unfold bind at 1 in H. rewrite Hb in H.
  destruct ob as [[]|e].
  2:{ cbn in H. injection H as <- <-. left. exists e.
      split; [reflexivity|]. rewrite Hob. exact Hasked. }
  specialize (Hbound tt eq_refl).
  unfold bind at 1 2 3 in H. unfold emit at 1 2, lift at 1 in H.
  set (sp := say (prompt "Enter amount to transfer: ")
               (say (prompt "Enter recipient address: ") sb)) in *.
  assert (Hsp : Forall not_a_verdict (out sp)).
  { unfold sp. cbn [out say]. rewrite Hob.
    repeat (apply Forall_app; split); trivial;
      repeat constructor; discriminate. }
  assert (Hselfp : self sp = self sb) by reflexivity.
  destruct (decimal_of_string h (amount_line typed)) as [amount|e] eqn:Eamt.
  2:{ cbn in H. injection H as <- <-. left. exists e.
      split; [reflexivity | exact Hsp]. }
  unfold bind at 1 in H.
  destruct (prepare_transaction eip w3 (recipient_line typed) amount sp)
    as [[tx|e] s2] eqn:Eprep.
  2:{ cbn in H. injection H as <- <-. left. exists e. split; [reflexivity|].
      destruct (keeps_out _ _ _ _ _ _
                  (prepare_transaction_lines eip w3 _ amount) Eprep)
        as (_ & l1 & -> & Hl1).
      apply Forall_app. split; [exact Hsp | now apply lines_not_verdicts]. }
  destruct (keeps_out _ _ _ _ _ _
              (prepare_transaction_lines eip w3 _ amount) Eprep)
    as (_ & l1 & Ho2 & Hl1).
  assert (Hs2 : Forall not_a_verdict (out s2)).
  { rewrite Ho2. apply Forall_app.
    split; [exact Hsp | now apply lines_not_verdicts]. }
  unfold bind at 1 in H.
  destruct (sign_and_send_transaction url w3 tx s2) as [[tx_hash|e] s3] eqn:Esend.
  2:{ cbn in H. injection H as <- <-. left. exists e. split; [reflexivity|].
      destruct (keeps_out _ _ _ _ _ _
                  (sign_and_send_transaction_lines url w3 tx) Esend)
        as (_ & l2 & -> & Hl2).
      apply Forall_app. split; [exact Hs2 | now apply lines_not_verdicts]. }
  destruct (keeps_out _ _ _ _ _ _
              (sign_and_send_transaction_lines url w3 tx) Esend)
    as (_ & l2 & Ho3 & Hl2).
  assert (Hs3 : Forall not_a_verdict (out s3)).
  { rewrite Ho3. apply Forall_app.
    split; [exact Hs2 | now apply lines_not_verdicts]. }
  unfold bind at 1 in H.
  destruct (wait_for_transaction w3 tx_hash s3) as [[r|e] s4] eqn:Ewait.
  2:{ cbn in H. injection H as <- <-. left. exists e. split; [reflexivity|].
      destruct (keeps_out _ _ _ _ _ _
                  (wait_for_transaction_lines w3 tx_hash) Ewait)
        as (_ & l3 & -> & Hl3).
      apply Forall_app. split; [exact Hs3 | now apply lines_not_verdicts]. }
  assert (s4 = s3 /\ wait_for_transaction_receipt w3 tx_hash = Return r)
    as [-> Hrec].
  { revert Ewait. unfold wait_for_transaction, on_time_exhausted, lift.
    destruct (wait_for_transaction_receipt w3 tx_hash)
      as [r'|e']; [intros [= <- <-]; auto|].
    destruct e'; discriminate. }
  right.
  assert (out sfin
          = out s3 ++ [if status r =? 1 then succeeded_line else failed_line]
          /\ o' = Return tt) as [-> ->].
  { destruct (status r =? 1); cbn in H; injection H as <- <-; auto. }
  split; [reflexivity|].
  exists sp, amount, tx, s2, tx_hash, s3, r.
  rewrite Hselfp, Hme, Hpk. auto 12.
Qed.

(** X10.  [main] writes a verdict only as its last line, and only after the
    transfer was prepared, sent and its receipt obtained: the draft is
    prepared for the typed recipient and amount by the client made from the
    typed key, bound to the typed contract if one was typed and unbound
    otherwise, that draft is signed with the typed key and sent, the
    receipt is the one awaited for the hash the endpoint gave for it, and
    the verdict follows the two lines of the sending: "Transaction
    succeeded" when the status of that receipt is 1, "Transaction failed"
    for any other status; in both cases [main] returns.  When a stage
    raises, the exception leaves [main] and no verdict has been written. *)
Theorem main_reports_the_receipt (eip : bool) (url : string) (w3 : rpc)
    (h : host) (typed : console) :
  (forall l,
     main eip url w3 h typed = (Return tt, l) ->
     exists s1 amount tx s2 raw tx_hash r,
       private_key (self s1) = private_key_line typed /\
       address_from_key h (private_key_line typed)
       = Return (address (self s1)) /\
       match non_empty (contract_address_line typed) with
       | None => contract (self s1) = None
       | Some a =>
           exists abi k,
             to_checksum_address w3 a = Return k /\
             contract (self s1) = Some {| c_address := k; c_abi := abi |}
       end /\
       decimal_of_string h (amount_line typed) = Return amount /\
       prepare_transaction eip w3 (recipient_line typed) amount s1
       = (Return tx, s2) /\
       sign_transaction w3 tx (private_key_line typed) = Return raw /\
       send_raw_transaction w3 raw = Return tx_hash /\
       wait_for_transaction_receipt w3 tx_hash = Return r /\
       l = out s2 ++ [signed_line; explorer_line url tx_hash;
                      if status r =? 1 then succeeded_line else failed_line] /\
       Forall not_a_verdict (out s2)) /\
  (forall e l,
     main eip url w3 h typed = (Raise e, l) -> Forall not_a_verdict l).
Proof.
  split.
  - intros l H. apply main_cases in H as [(e & He & _) | (_ & H)];
      [discriminate|].
    destruct H as (s1 & amount & tx & s2 & tx_hash & s3 & r
                   & Hkey & Hpk & Hbound & Hamt & Hprep & Hsend & Hw & Hq
                   & ->).
    assert (Hself : self s2 = self s1).
    { destruct (keeps_out _ _ _ _ _ _
                  (prepare_transaction_lines eip w3 _ amount) Hprep)
        as (Hs & _). exact Hs. }
    destruct (sign_and_send_returned _ _ _ _ _ _ Hsend)
      as (raw & Hsign & Hraw & ->).
    rewrite Hself, Hpk in Hsign.
    exists s1, amount, tx, s2, raw, tx_hash, r.
    do 8 (split; [assumption|]).
    cbn [out say] in *. split.
    + now rewrite <- !app_assoc.
    + rewrite <- app_assoc in Hq. apply Forall_app in Hq. tauto.
  - intros e l H. apply main_cases in H as [(e' & _ & Hq) | (He & _)];
      [exact Hq | discriminate].
Qed.

(** A mined transfer of 1.5 ether, and a run in which the endpoint refuses
    the broadcast. *)
Lemma main_reports_the_receipt_witness :
  (exists s1 amount tx s2 raw tx_hash r,
     private_key (self s1) = "0xkey"%string /\
     address_from_key sample_host "0xkey" = Return (address (self s1)) /\
     contract (self s1) = None /\
     decimal_of_string sample_host "1.5" = Return amount /\
     prepare_transaction true
       (sample_rpc 100 10 (wei_of_ether 5) 30000000 6 (Some 1))
       "0xRecipient" amount s1 = (Return tx, s2) /\
     sign_transaction
       (sample_rpc 100 10 (wei_of_ether 5) 30000000 6 (Some 1))
       tx "0xkey" = Return raw /\
     send_raw_transaction
       (sample_rpc 100 10 (wei_of_ether 5) 30000000 6 (Some 1)) raw
     = Return tx_hash /\
     wait_for_transaction_receipt
       (sample_rpc 100 10 (wei_of_ether 5) 30000000 6 (Some 1)) tx_hash
     = Return r /\
     snd (main true "https://explorer"
            (sample_rpc 100 10 (wei_of_ether 5) 30000000 6 (Some 1))
            sample_host (sample_console ""))
     = out s2 ++ [signed_line; explorer_line "https://explorer" tx_hash;
                  if status r =? 1 then succeeded_line else failed_line] /\
     Forall not_a_verdict (out s2)) /\
  Forall not_a_verdict
    (snd (main true "https://explorer" rejecting_rpc sample_host
            (sample_console ""))).
Proof.
  split.
  - exact (proj1 (main_reports_the_receipt true "https://explorer"
                    (sample_rpc 100 10 (wei_of_ether 5) 30000000 6 (Some 1))
                    sample_host (sample_console "")) _ eq_refl).
  - exact (proj2 (main_reports_the_receipt true "https://explorer"
                    rejecting_rpc sample_host (sample_console ""))
             (InvalidTransaction "nonce too low") _ eq_refl).
Defined.

(** X11.  When [main] returns, the transaction it sent is the draft
    prepared from what was typed, signed with the typed key.  With nothing
    typed for the contract the draft is a native transfer: its [value] is
    the typed amount in wei and it carries no call.  With an address typed
    it is a call of [transfer] for the typed recipient and the amount at
    the token's decimals, addressed to the checksummed contract. *)
Theorem main_sends_what_was_typed (eip : bool) (url : string) (w3 : rpc)
    (h : host) (typed : console) (l : list event) :
  main eip url w3 h typed = (Return tt, l) ->
  exists amount tx raw tx_hash,
    decimal_of_string h (amount_line typed) = Return amount /\
    sign_transaction w3 tx (private_key_line typed) = Return raw /\
    send_raw_transaction w3 raw = Return tx_hash /\
    match non_empty (contract_address_line typed) with
    | None =>
        exists wei,
          Web3.to_wei amount Web3.ether = Return wei /\
          value tx = Some wei /\ data tx = None /\ to_ tx = None
    | Some a =>
        exists k r d u wei,
          to_checksum_address w3 a = Return k /\
          to_checksum_address w3 (recipient_line typed) = Return r /\
          call_decimals w3 k = Return d /\
          unit_names d = Some u /\
          Web3.to_wei amount u = Return wei /\
          data tx = Some (Transfer r wei) /\ to_ tx = Some k
    end.
Proof.
  intros H. apply main_cases in H as [(e & He & _) | (_ & H)];
    [discriminate|].
  destruct H as (s1 & amount & tx & s2 & tx_hash & s3 & r
                 & _ & Hpk & Hbound & Hamt & Hprep & Hsend & _ & _ & _).
  assert (Hself : self s2 = self s1).
  { destruct (keeps_out _ _ _ _ _ _
                (prepare_transaction_lines eip w3 _ amount) Hprep)
      as (Hs & _). exact Hs. }
  destruct (sign_and_send_returned _ _ _ _ _ _ Hsend)
    as (raw & Hsign & Hraw & _).
  rewrite Hself, Hpk in Hsign.
  exists amount, tx, raw, tx_hash.
  do 3 (split; [assumption|]).
  apply prepare_transaction_inv in Hprep.
  destruct Hprep as (rc & t1 & t2 & m & Hr & _ & _ & _ & _ & Hdraft).
  destruct (non_empty (contract_address_line typed)) as [a|].
  - destruct Hbound as (abi & k & Hk & Hc). rewrite Hc in Hdraft.
    destruct Hdraft as (d & u & wei & Hd & Hu & Hw & Hdata & Hto & _).
    exists k, rc, d, u, wei. cbn [c_address] in *. auto 10.
  - rewrite Hbound in Hdraft. exact Hdraft.
Qed.

(** Nothing typed for the contract, and a token address typed. *)
Lemma main_sends_what_was_typed_witness :
  (exists amount tx raw tx_hash,
     decimal_of_string sample_host "1.5" = Return amount /\
     sign_transaction
       (sample_rpc 100 10 (wei_of_ether 5) 30000000 6 (Some 1))
       tx "0xkey" = Return raw /\
     send_raw_transaction
       (sample_rpc 100 10 (wei_of_ether 5) 30000000 6 (Some 1)) raw
     = Return tx_hash /\
     exists wei,
       Web3.to_wei amount Web3.ether = Return wei /\
       value tx = Some wei /\ data tx = None /\ to_ tx = None) /\
  (exists amount tx raw tx_hash,
     decimal_of_string sample_host "1.5" = Return amount /\
     sign_transaction
       (sample_rpc 100 10 (wei_of_ether 5) 30000000 6 (Some 1))
       tx "0xkey" = Return raw /\
     send_raw_transaction
       (sample_rpc 100 10 (wei_of_ether 5) 30000000 6 (Some 1)) raw
     = Return tx_hash /\
     exists k r d u wei,
       to_checksum_address
         (sample_rpc 100 10 (wei_of_ether 5) 30000000 6 (Some 1))
         "0xToken" = Return k /\
       to_checksum_address
         (sample_rpc 100 10 (wei_of_ether 5) 30000000 6 (Some 1))
         "0xRecipient" = Return r /\
       call_decimals
         (sample_rpc 100 10 (wei_of_ether 5) 30000000 6 (Some 1)) k
       = Return d /\
       unit_names d = Some u /\
       Web3.to_wei amount u = Return wei /\
       data tx = Some (Transfer r wei) /\ to_ tx = Some k).
Proof.
  split.
  - exact (main_sends_what_was_typed true "https://explorer"
             (sample_rpc 100 10 (wei_of_ether 5) 30000000 6 (Some 1))
             sample_host (sample_console "") _ eq_refl).
  - exact (main_sends_what_was_typed true "https://explorer"
             (sample_rpc 100 10 (wei_of_ether 5) 30000000 6 (Some 1))
             sample_host (sample_console "0xToken") _ eq_refl).
Defined.

(** ** Amounts finer than a base unit *)

Lemma fix_keeps_short prec c e :
  0 < c -> PyDecimal.digits10 c <= prec ->
  PyDecimal.Emin - prec + 1 <= e <= PyDecimal.Emax - prec + 1 ->
  PyDecimal.fix_ prec c e = Return (PyDec c e).
Proof.
  intros Hc Hd He. unfold PyDecimal.fix_.
  replace (c =? 0) with false by (symmetry; apply Z.eqb_neq; lia).
  rewrite Z.abs_eq by lia.
  replace (PyDecimal.Emax - prec + 1 <? PyDecimal.digits10 c + e - prec)
    with false by (symmetry; apply Z.ltb_ge; lia).
  replace (e <? Z.max (PyDecimal.digits10 c + e - prec)
                  (PyDecimal.Emin - prec + 1))
    with false by (symmetry; apply Z.ltb_ge; lia).
  reflexivity.
Qed.

Lemma to_integral_floor c e :
  0 <= c ->
  PyDecimal.to_integral (PyDec c e) = Qfloor (PyDecimal.value (PyDec c e)).
Proof.
  intros Hc. cbn [PyDecimal.to_integral PyDecimal.value].
  destruct (0 <=? e) eqn:E.
  - apply Z.leb_le in E. rewrite Qpow10_nonneg by assumption.
    rewrite <- inject_Z_mult. symmetry. apply Qfloor_Z.
  - apply Z.leb_gt in E. rewrite Qpow10_neg by assumption.
    assert (P : 0 < 10 ^ (- e)) by (apply Z.pow_pos_nonneg; lia).
    rewrite Z.quot_div_nonneg by lia.
    rewrite Zdiv_Qdiv. reflexivity.
Qed.

(** X12.  [to_wei] truncates.  For [d] in {6, 9, 18} and a positive amount
    [c * 10^e] whose coefficient, scaled by the unit, has at most 999 digits
    and whose exponent is in the range of the context: if the amount in
    base units is at most 2^256 - 1, [to_wei] returns its integer part, so
    an amount below one base unit becomes 0 without an error; if it is
    more, [to_wei] raises the [ValueError] of the range. *)
Theorem to_wei_truncates (d : Z) (u : Web3.unit_name) (c e : Z) (s : state) :
  unit_names d = Some u ->
  0 < c ->
  PyDecimal.digits10 (c * Web3.unit_value u) <= 999 ->
  -1000997 <= e <= 999001 ->
  let q := (PyDecimal.value (PyDec c e) * inject_Z (10 ^ d))%Q in
  ((q <= inject_Z Web3.MAX_WEI)%Q ->
   to_wei (PyDec c e) d s = (Return (Qfloor q), s)) /\
  ((inject_Z Web3.MAX_WEI < q)%Q ->
   to_wei (PyDec c e) d s
   = (Raise (ValueError
        [Lit "Resulting wei value must be between 1 and 2**256 - 1"]), s)).
Proof.
  intros Hu Hc Hd He q.
  pose proof (unit_value_pos u) as Hpos.
  assert (Hval : Web3.unit_value u = 10 ^ d).
  { unfold Web3.unit_value. now rewrite (unit_names_decimals d u Hu). }
  assert (HC : 0 < c * Web3.unit_value u) by lia.
  assert (Hq : (PyDecimal.value (PyDec (c * Web3.unit_value u) e) == q)%Q).
  { unfold q. cbn [PyDecimal.value]. rewrite inject_Z_mult, Hval. ring. }
  assert (Hq0 : (0 < q)%Q).
  { rewrite <- Hq. cbn [PyDecimal.value].
    apply Qmult_lt_0_compat.
    - change 0%Q with (inject_Z 0). rewrite <- Zlt_Qlt. exact HC.
    - apply Qpower_0_lt. reflexivity. }
  unfold to_wei. rewrite Hu. unfold lift, Web3.to_wei.
  cbn [PyDecimal.as_dec].
  replace (c =? 0) with false by (symmetry; apply Z.eqb_neq; lia).
  rewrite fix_keeps_short
    by (unfold PyDecimal.Emin, PyDecimal.Emax; first [assumption | lia]).
  assert (L1 : PyDecimal.lt (PyDec (c * Web3.unit_value u) e)
                 (PyInt Web3.MIN_WEI) = false).
  { apply lt_false. rewrite Hq. cbn [PyDecimal.value].
    change (inject_Z Web3.MIN_WEI) with 0%Q. apply Qlt_le_weak. exact Hq0. }
  rewrite L1. cbn [orb]. split; intros Hcmp.
  - replace (PyDecimal.lt (PyInt Web3.MAX_WEI)
               (PyDec (c * Web3.unit_value u) e)) with false
      by (symmetry; apply lt_false; rewrite Hq; exact Hcmp).
    rewrite to_integral_floor by lia. now rewrite Hq.
  - replace (PyDecimal.lt (PyInt Web3.MAX_WEI)
               (PyDec (c * Web3.unit_value u) e)) with true
      by (symmetry; apply lt_true; rewrite Hq; exact Hcmp).
    reflexivity.
Qed.

(** 0.0000001 of a token of 6 decimals is 0 base units; 2.5 wei is 2 wei;
    10^60 ether is out of range. *)
Lemma to_wei_truncates_witness :
  to_wei (PyDec 1 (-7)) 6 (fresh bound_client)
  = (Return 0, fresh bound_client) /\
  to_wei (PyDec 25 (-19)) 18 (fresh bound_client)
  = (Return 2, fresh bound_client) /\
  to_wei (PyDec 1 60) 18 (fresh bound_client)
  = (Raise (ValueError
       [Lit "Resulting wei value must be between 1 and 2**256 - 1"]),
     fresh bound_client).
Proof.
  split; [|split].
  - refine (proj1 (to_wei_truncates 6 Web3.mwei 1 (-7) (fresh bound_client)
                     eq_refl _ _ _) _).
    + reflexivity.
    + vm_compute. discriminate.
    + split; discriminate.
    + vm_compute. discriminate.
  - refine (proj1 (to_wei_truncates 18 Web3.ether 25 (-19)
                     (fresh bound_client) eq_refl _ _ _) _).
    + reflexivity.
    + vm_compute. discriminate.
    + split; discriminate.
    + vm_compute. discriminate.
  - refine (proj2 (to_wei_truncates 18 Web3.ether 1 60 (fresh bound_client)
                     eq_refl _ _ _) _).
    + reflexivity.
    + vm_compute. discriminate.
    + split; discriminate.
    + vm_compute. reflexivity.
Defined.

